(** * A shallow embedding of the blog application in [src/main.py]

    The application is a thin request/response layer over three tables
    (users, blog_posts, comments).  Each request handler is embedded as a
    function from the committed database and the client's session cookie
    to either an exception or a new database, a new session and a response
    descriptor.  A handler that raises leaves the committed database as it
    was: every handler commits at most once and nothing after its commit
    can raise. *)

From Stdlib Require Import List String Ascii Arith NArith Bool Lia
  DecimalString DecimalNat Sorted.
Import ListNotations.
Local Open Scope string_scope.
Local Open Scope list_scope.
Local Open Scope nat_scope.

(** ** Data model (main.py, lines 41-70) *)

Module User.
Record t := mk
  { id : nat;
    email : string;
    password : string;
    name : string }.
End User.

Module BlogPost.
Record t := mk
  { id : nat;
    author_id : option nat;
    title : string;
    subtitle : string;
    date : string;
    body : string;
    img_url : string }.
End BlogPost.

Module Comment.
Record t := mk
  { id : nat;
    author_id : option nat;
    post_id : option nat;
    text : string }.
End Comment.

(** The committed content of the three tables, rows in primary-key order. *)
Record DB := mkDB
  { users : list User.t;
    blog_posts : list BlogPost.t;
    comments : list Comment.t }.

Definition empty_db : DB := mkDB [] [] [].

(** ** Exceptions and the result of a handler *)

Inductive Exception :=
| AttributeError
| UnmappedInstanceError
| IntegrityError
| OverflowError
| SMTPException.

Inductive Result (A : Type) :=
| Ok (a : A)
| Raise (e : Exception).
Arguments Ok {A} a.
Arguments Raise {A} e.

Definition bind {A B : Type} (r : Result A) (k : A -> Result B) : Result B :=
  match r with
  | Ok a => k a
  | Raise e => Raise e
  end.

Notation "x <- r ;; k" := (bind r (fun x => k))
  (at level 61, r at next level, right associativity).

(** ** Queries *)

Definition User_query_get (db : DB) (user_id : nat) : option User.t :=
  find (fun u => User.id u =? user_id) (users db).

Definition User_query_filter_by_email_first (db : DB) (email : string)
  : option User.t :=
  find (fun u => (User.email u =? email)%string) (users db).

Definition BlogPost_query_all (db : DB) : list BlogPost.t := blog_posts db.

(** The row of [blog_posts] with this key, if there is one: what a SELECT
    by primary key returns once the key is bound.  The call
    [BlogPost.query.get] of lines 199 and 220, which can raise, is
    [BlogPost_query_get_executed] below. *)
Definition BlogPost_query_get (db : DB) (post_id : nat) : option BlogPost.t :=
  find (fun p => BlogPost.id p =? post_id) (blog_posts db).

(** The keys of the store are signed 64-bit integers. *)
Definition sqlite_integer (n : nat) : bool :=
  (N.of_nat n <? 2 ^ 63)%N.

(** [BlogPost.query.get(post_id)] as lines 199 and 220 execute it: the id
    is bound to a SELECT by primary key.  Binding an id that is no 64-bit
    integer raises [OverflowError]; every stored key is one, so such an id
    names no row. *)
Definition BlogPost_query_get_executed (db : DB) (post_id : nat)
  : Result (option BlogPost.t) :=
  match BlogPost_query_get db post_id with
  | Some post => Ok (Some post)
  | None =>
      if sqlite_integer post_id then Ok None else Raise OverflowError
  end.

Definition Comment_query_all (db : DB) : list Comment.t := comments db.

(** ** Commits

    An integer primary key left unset is assigned one more than the
    largest key of the table (1 on an empty table), the rule of the default
    [sqlite:///blog.db] store. *)

Definition autoincrement (ids : list nat) : nat := S (list_max ids).

(** [db.session.add(new_user); db.session.commit()], with the
    [unique=True] constraint of [users.email]. *)
Definition commit_add_user (db : DB) (email password name : string)
  : Result (DB * User.t) :=
  if existsb (fun u => (User.email u =? email)%string) (users db)
  then Raise IntegrityError
  else
    let new_user :=
      User.mk (autoincrement (map User.id (users db))) email password name in
    Ok (mkDB (users db ++ [new_user]) (blog_posts db) (comments db), new_user).

(** [db.session.add(new_blog); db.session.commit()], with the
    [unique=True] constraint of [blog_posts.title]. *)
Definition commit_add_post (db : DB) (author_id : option nat)
    (title subtitle date body img_url : string) : Result (DB * BlogPost.t) :=
  if existsb (fun p => (BlogPost.title p =? title)%string) (blog_posts db)
  then Raise IntegrityError
  else
    let new_blog :=
      BlogPost.mk (autoincrement (map BlogPost.id (blog_posts db)))
                  author_id title subtitle date body img_url in
    Ok (mkDB (users db) (blog_posts db ++ [new_blog]) (comments db), new_blog).

(** [db.session.add(new_comment); db.session.commit()]: both foreign keys
    of [comments] are nullable and the table has no unique column. *)
Definition commit_add_comment (db : DB) (author_id post_id : option nat)
    (text : string) : DB * Comment.t :=
  let new_comment :=
    Comment.mk (autoincrement (map Comment.id (comments db)))
               author_id post_id text in
  (mkDB (users db) (blog_posts db) (comments db ++ [new_comment]), new_comment).

Definition set_post_fields (title subtitle body img_url : string)
    (p : BlogPost.t) : BlogPost.t :=
  BlogPost.mk (BlogPost.id p) (BlogPost.author_id p) title subtitle
              (BlogPost.date p) body img_url.

(** The four attribute assignments of [edit_post] followed by
    [db.session.commit()]: an UPDATE of the row with that key, refused when
    another row already carries the new title. *)
Definition commit_update_post (db : DB) (post_id : nat)
    (title subtitle body img_url : string) : Result DB :=
  if existsb (fun p => negb (BlogPost.id p =? post_id)
                       && (BlogPost.title p =? title)%string) (blog_posts db)
  then Raise IntegrityError
  else
    Ok (mkDB (users db)
             (map (fun p => if BlogPost.id p =? post_id
                            then set_post_fields title subtitle body img_url p
                            else p) (blog_posts db))
             (comments db)).

Definition nullify_post (post_id : nat) (c : Comment.t) : Comment.t :=
  match Comment.post_id c with
  | Some pid =>
      if pid =? post_id
      then Comment.mk (Comment.id c) (Comment.author_id c) None (Comment.text c)
      else c
  | None => c
  end.

(** [db.session.delete(post); db.session.commit()].  The relationship
    [BlogPost.comments] (line 61) declares no delete cascade, so the ORM
    de-associates the post's comments by setting their [post_id] to NULL
    and then deletes the row. *)
Definition commit_delete_post (db : DB) (post_id : nat) : DB :=
  mkDB (users db)
       (filter (fun p => negb (BlogPost.id p =? post_id)) (blog_posts db))
       (map (nullify_post post_id) (comments db)).

(** ** Session and identity (flask_login) *)

(** The client-held session: the logged-in user's key and the pending
    flash messages. *)
Record Session := mkSession
  { user_id : option nat;
    flashes : list string }.

Definition anonymous_session : Session := mkSession None [].

Definition flash (message : string) (s : Session) : Session :=
  mkSession (user_id s) (flashes s ++ [message]).

Definition login_user (user : User.t) (s : Session) : Session :=
  mkSession (Some (User.id user)) (flashes s).

Definition logout_user (s : Session) : Session :=
  mkSession None (flashes s).

(** [current_user] is either a row of [users] or flask_login's
    [AnonymousUserMixin]. *)
Inductive Identity :=
| AnonymousUserMixin
| LoggedIn (user : User.t).

(** main.py, lines 83-85. *)
Definition load_user (db : DB) (user_id : nat) : option User.t :=
  User_query_get db user_id.

Definition current_user (db : DB) (s : Session) : Identity :=
  match user_id s with
  | None => AnonymousUserMixin
  | Some uid =>
      match load_user db uid with
      | Some user => LoggedIn user
      | None => AnonymousUserMixin
      end
  end.

Definition is_authenticated (i : Identity) : bool :=
  match i with
  | AnonymousUserMixin => false
  | LoggedIn _ => true
  end.

(** [current_user.id]: [AnonymousUserMixin] defines [get_id] but no
    attribute [id]. *)
Definition current_user_id (i : Identity) : Result nat :=
  match i with
  | AnonymousUserMixin => Raise AttributeError
  | LoggedIn user => Ok (User.id user)
  end.

(** The key written to a foreign-key column when [current_user] is
    assigned to a relationship. *)
Definition identity_key (i : Identity) : option nat :=
  match i with
  | AnonymousUserMixin => None
  | LoggedIn user => Some (User.id user)
  end.

(** ** Requests and responses *)

(** What reaches a view with a form: a GET, or a POST with its form data. *)
Inductive Submission (F : Type) :=
| GET
| POST (formdata : F).
Arguments GET {F}.
Arguments POST {F} formdata.

Module RegisterForm.
Record t := mk { email : string; password : string; name : string }.
End RegisterForm.

Module LoginForm.
Record t := mk { email : string; password : string }.
End LoginForm.

Module CommentForm.
Record t := mk { comment : string }.
End CommentForm.

Module CreatePostForm.
Record t := mk
  { title : string; subtitle : string; img_url : string; body : string }.
End CreatePostForm.

(** [url_for] targets used by the handlers. *)
Inductive Endpoint :=
| url_get_all_posts
| url_login
| url_show_post (index : nat).

Inductive Template :=
| index_html (all_posts : list BlogPost.t)
| register_html
| login_html
| post_html (post : option BlogPost.t) (comments : list Comment.t)
| make_post_html (form : option CreatePostForm.t) (is_edit : bool)
| about_html
| contact_html (msg_sent : bool).

Inductive Response :=
| Render (template : Template)
| Redirect (endpoint : Endpoint)
| Abort (code : nat).

Definition Outcome : Type := DB * Session * Response.

Definition Handler : Type := DB -> Session -> Result Outcome.

(** ** Dates: [today.strftime('%B %d, %Y')] *)

Inductive Month :=
| January | February | March | April | May | June
| July | August | September | October | November | December.

Record datetime := mkDate
  { year : nat;
    month : Month;
    day : nat }.

Definition month_name (m : Month) : string :=
  match m with
  | January => "January" | February => "February" | March => "March"
  | April => "April" | May => "May" | June => "June"
  | July => "July" | August => "August" | September => "September"
  | October => "October" | November => "November" | December => "December"
  end.

Definition decimal (n : nat) : string :=
  NilEmpty.string_of_uint (Nat.to_uint n).

(** [%d]: the day of the month as two digits. *)
Definition zero_padded (n : nat) : string :=
  if n <? 10 then ("0" ++ decimal n)%string else decimal n.

Definition strftime_B_d_Y (today : datetime) : string :=
  (month_name (month today) ++ " " ++ zero_padded (day today) ++ ", "
     ++ decimal (year today))%string.

(** ** External collaborators

    The form classes come from [forms.py] and the password hasher from
    werkzeug; neither is part of [main.py].  Their behaviour is taken as a
    parameter: what each form's validators accept, and the hasher as a pair
    of functions (the salt that werkzeug draws at random is made an
    explicit argument). *)

Class Forms := mkForms
  { RegisterForm_validate : RegisterForm.t -> bool;
    LoginForm_validate : LoginForm.t -> bool;
    CommentForm_validate : CommentForm.t -> bool;
    CreatePostForm_validate : CreatePostForm.t -> bool }.

Class PasswordHasher := mkHasher
  { generate_password_hash : string -> string -> string;
    check_password_hash : string -> string -> bool }.

(** [form.validate_on_submit()]: the request is a POST and its data pass
    the form's validators. *)
Definition validate_on_submit {F : Type} (validate : F -> bool)
    (sub : Submission F) : option F :=
  match sub with
  | GET => None
  | POST formdata => if validate formdata then Some formdata else None
  end.

(** The data a bound form shows when it is rendered again. *)
Definition form_data {F : Type} (sub : Submission F) : option F :=
  match sub with
  | GET => None
  | POST formdata => Some formdata
  end.

(** ** The handlers (main.py, lines 75-249) *)

Section Handlers.

Context {forms : Forms} {hasher : PasswordHasher}.

(** Lines 75-81. *)
Definition admin_only (function_x : Handler) : Handler :=
  fun db s =>
    uid <- current_user_id (current_user db s) ;;
    if negb (uid =? 1)
    then Ok (db, s, Abort 403)
    else function_x db s.

(** Lines 87-90. *)
Definition get_all_posts : Handler :=
  fun db s =>
    let posts := BlogPost_query_all db in
    Ok (db, s, Render (index_html posts)).

(** Lines 92-119. *)
Definition register (sub : Submission RegisterForm.t) (salt : string)
  : Handler :=
  fun db s =>
    match validate_on_submit RegisterForm_validate sub with
    | Some form =>
        match User_query_filter_by_email_first db (RegisterForm.email form) with
        | Some _ =>
            Ok (db,
                flash "You've already signed up with that email, log in instead!" s,
                Redirect url_login)
        | None =>
            let password :=
              generate_password_hash (RegisterForm.password form) salt in
            r <- commit_add_user db (RegisterForm.email form) password
                                 (RegisterForm.name form) ;;
            let (db', new_user) := r in
            Ok (db', login_user new_user s, Redirect url_get_all_posts)
        end
    | None => Ok (db, s, Render register_html)
    end.

(** [register] when other requests commit between its lookup (line 98),
    which reads [db_seen], and its insert (lines 112-113), which is
    committed against [db_now]. *)
Definition register_interleaved (sub : Submission RegisterForm.t)
    (salt : string) (db_seen db_now : DB) (s : Session) : Result Outcome :=
  match validate_on_submit RegisterForm_validate sub with
  | Some form =>
      match User_query_filter_by_email_first db_seen
              (RegisterForm.email form) with
      | Some _ =>
          Ok (db_now,
              flash "You've already signed up with that email, log in instead!" s,
              Redirect url_login)
      | None =>
          let password :=
            generate_password_hash (RegisterForm.password form) salt in
          r <- commit_add_user db_now (RegisterForm.email form) password
                               (RegisterForm.name form) ;;
          let (db', new_user) := r in
          Ok (db', login_user new_user s, Redirect url_get_all_posts)
      end
  | None => Ok (db_now, s, Render register_html)
  end.

(** Lines 122-139. *)
Definition login (sub : Submission LoginForm.t) : Handler :=
  fun db s =>
    match validate_on_submit LoginForm_validate sub with
    | Some form =>
        let email := LoginForm.email form in
        let password := LoginForm.password form in
        match User_query_filter_by_email_first db email with
        | Some user =>
            if check_password_hash (User.password user) password
            then Ok (db, login_user user s, Redirect url_get_all_posts)
            else Ok (db, flash "Password incorrect, please try again" s,
                     Redirect url_login)
        | None =>
            Ok (db, flash "That email does not exist, please try again" s,
                Redirect url_login)
        end
    | None => Ok (db, s, Render login_html)
    end.

(** Lines 142-145. *)
Definition logout : Handler :=
  fun db s => Ok (db, logout_user s, Redirect url_get_all_posts).

(** The loop of lines 155-157: the last post whose key is [index]. *)
Definition find_requested_post (posts : list BlogPost.t) (index : nat)
  : option BlogPost.t :=
  fold_left
    (fun requested_post post =>
       if BlogPost.id post =? index then Some post else requested_post)
    posts None.

(** Lines 148-172.  The comment list handed to the template is the one
    read before the new comment is committed. *)
Definition show_post (index : nat) (sub : Submission CommentForm.t)
  : Handler :=
  fun db s =>
    let posts := BlogPost_query_all db in
    let comments := Comment_query_all db in
    let requested_post := find_requested_post posts index in
    match validate_on_submit CommentForm_validate sub with
    | Some form =>
        if negb (is_authenticated (current_user db s))
        then Ok (db, flash "YOu need to login or register to comment" s,
                 Redirect url_login)
        else
          let (db', _) :=
            commit_add_comment db
              (identity_key (current_user db s))
              (option_map BlogPost.id requested_post)
              (CommentForm.comment form) in
          Ok (db', s, Render (post_html requested_post comments))
    | None => Ok (db, s, Render (post_html requested_post comments))
    end.

(** Lines 177-193, before decoration. *)
Definition new_post_body (sub : Submission CreatePostForm.t)
    (today : datetime) : Handler :=
  fun db s =>
    match validate_on_submit CreatePostForm_validate sub with
    | Some form =>
        r <- commit_add_post db
               (identity_key (current_user db s))
               (CreatePostForm.title form)
               (CreatePostForm.subtitle form)
               (strftime_B_d_Y today)
               (CreatePostForm.body form)
               (CreatePostForm.img_url form) ;;
        Ok (fst r, s, Redirect url_get_all_posts)
    | None => Ok (db, s, Render (make_post_html (form_data sub) false))
    end.

Definition new_post (sub : Submission CreatePostForm.t) (today : datetime)
  : Handler :=
  admin_only (new_post_body sub today).

(** Reading [post.title] (line 201): [AttributeError] when
    [BlogPost.query.get] returned [None]. *)
Definition post_attributes (post : option BlogPost.t) : Result BlogPost.t :=
  match post with
  | Some p => Ok p
  | None => Raise AttributeError
  end.

(** Lines 198-215, before decoration.  On a GET the form shows the post's
    current fields, on a POST the submitted ones.  The lookup of line 199
    raises [OverflowError] for an id that is no 64-bit integer. *)
Definition edit_post_body (post_id : nat) (sub : Submission CreatePostForm.t)
  : Handler :=
  fun db s =>
    found <- BlogPost_query_get_executed db post_id ;;
    post <- post_attributes found ;;
    let prefilled :=
      CreatePostForm.mk (BlogPost.title post) (BlogPost.subtitle post)
                        (BlogPost.img_url post) (BlogPost.body post) in
    match validate_on_submit CreatePostForm_validate sub with
    | Some edit_form =>
        db' <- commit_update_post db (BlogPost.id post)
                 (CreatePostForm.title edit_form)
                 (CreatePostForm.subtitle edit_form)
                 (CreatePostForm.body edit_form)
                 (CreatePostForm.img_url edit_form) ;;
        Ok (db', s, Redirect (url_show_post post_id))
    | None =>
        let shown :=
          match form_data sub with
          | Some submitted => submitted
          | None => prefilled
          end in
        Ok (db, s, Render (make_post_html (Some shown) true))
    end.

Definition edit_post (post_id : nat) (sub : Submission CreatePostForm.t)
  : Handler :=
  admin_only (edit_post_body post_id sub).

(** Lines 219-223, before decoration: the lookup of line 220 raises
    [OverflowError] for an id that is no 64-bit integer, and
    [db.session.delete(None)] raises [UnmappedInstanceError]. *)
Definition delete_body (post_id : nat) : Handler :=
  fun db s =>
    found <- BlogPost_query_get_executed db post_id ;;
    match found with
    | Some post_to_delete =>
        Ok (commit_delete_post db (BlogPost.id post_to_delete), s,
            Redirect url_get_all_posts)
    | None => Raise UnmappedInstanceError
    end.

Definition delete (post_id : nat) : Handler :=
  admin_only (delete_body post_id).

(** Lines 226-228. *)
Definition about : Handler :=
  fun db s => Ok (db, s, Render about_html).

Definition form_get (data : list (string * string)) (key : string)
  : option string :=
  option_map snd (find (fun kv => (fst kv =? key)%string) data).

(** Lines 233-249.  A key missing from [request.form] ends the request with
    a 400 response; [smtp_ok] tells whether the mail transport accepted the
    message.  Neither the database nor the session is read or written. *)
Definition contact (sub : Submission (list (string * string)))
    (smtp_ok : bool) : Handler :=
  fun db s =>
    match sub with
    | POST data =>
        match form_get data "nam", form_get data "emai",
              form_get data "phon", form_get data "messag" with
        | Some _, Some _, Some _, Some _ =>
            if smtp_ok
            then Ok (db, s, Render (contact_html true))
            else Raise SMTPException
        | _, _, _, _ => Ok (db, s, Abort 400)
        end
    | GET => Ok (db, s, Render (contact_html false))
    end.

(** ** Sequences of requests *)

Inductive Request :=
| req_get_all_posts
| req_register (sub : Submission RegisterForm.t) (salt : string)
| req_login (sub : Submission LoginForm.t)
| req_logout
| req_show_post (index : nat) (sub : Submission CommentForm.t)
| req_new_post (sub : Submission CreatePostForm.t) (today : datetime)
| req_edit_post (post_id : nat) (sub : Submission CreatePostForm.t)
| req_delete (post_id : nat)
| req_about
| req_contact (sub : Submission (list (string * string))) (smtp_ok : bool).

Definition dispatch (r : Request) : Handler :=
  match r with
  | req_get_all_posts => get_all_posts
  | req_register sub salt => register sub salt
  | req_login sub => login sub
  | req_logout => logout
  | req_show_post index sub => show_post index sub
  | req_new_post sub today => new_post sub today
  | req_edit_post post_id sub => edit_post post_id sub
  | req_delete post_id => delete post_id
  | req_about => about
  | req_contact sub smtp_ok => contact sub smtp_ok
  end.

(** One request against the committed database: the client sends its
    session cookie with the request; a request that raises commits
    nothing. *)
Definition step (db : DB) (sr : Session * Request) : DB :=
  match dispatch (snd sr) db (fst sr) with
  | Ok (db', _, _) => db'
  | Raise _ => db
  end.

Definition run (db : DB) (requests : list (Session * Request)) : DB :=
  fold_left step requests db.

End Handlers.

(** ** Instances used to run the handlers on concrete requests

    A form layer whose validators require every field to be non-empty, and
    a stand-in hasher that keeps the password itself. *)

Definition data_required (field : string) : bool :=
  negb (field =? "")%string.

Definition forms_data_required : Forms :=
  mkForms
    (fun f => data_required (RegisterForm.email f)
              && data_required (RegisterForm.password f)
              && data_required (RegisterForm.name f))
    (fun f => data_required (LoginForm.email f)
              && data_required (LoginForm.password f))
    (fun f => data_required (CommentForm.comment f))
    (fun f => data_required (CreatePostForm.title f)
              && data_required (CreatePostForm.subtitle f)
              && data_required (CreatePostForm.img_url f)
              && data_required (CreatePostForm.body f)).

Definition hasher_plain : PasswordHasher :=
  mkHasher (fun password _ => password)
           (fun pwhash password => (pwhash =? password)%string).

Definition alice : User.t := User.mk 1 "a@x.com" "pw1" "Alice".
Definition bob : User.t := User.mk 2 "b@x.com" "pw2" "Bob".

Definition alice_form : RegisterForm.t :=
  RegisterForm.mk "a@x.com" "pw1" "Alice".

Definition session_of (uid : nat) : Session := mkSession (Some uid) [].

Definition post_T : BlogPost.t :=
  BlogPost.mk 1 (Some 1) "T" "sub" "November 03, 2026" "text" "http://img".

Definition post_U : BlogPost.t :=
  BlogPost.mk 2 (Some 1) "U" "sub" "November 03, 2026" "text" "http://img".

Definition form_T : CreatePostForm.t :=
  CreatePostForm.mk "T" "sub2" "http://img2" "text2".

Definition form_V : CreatePostForm.t :=
  CreatePostForm.mk "V" "sub2" "http://img2" "text2".

Definition db_users : DB := mkDB [alice; bob] [] [].
Definition db_one_post : DB := mkDB [alice; bob] [post_T] [].
Definition db_two_posts : DB := mkDB [alice; bob] [post_T; post_U] [].

Definition today_example : datetime := mkDate 2026 November 3.

Definition comment_form_hi : CommentForm.t := CommentForm.mk "hi".

Definition login_carol : LoginForm.t := LoginForm.mk "c@x.com" "pw3".

(** Alice registers, then submits a comment for a path id with no post. *)
Definition requests_comment_no_post : list (Session * Request) :=
  [ (anonymous_session, req_register (POST alice_form) "salt");
    (session_of 1, req_show_post 7 (POST comment_form_hi)) ].

(** The administrator writes a post and a second user registers. *)
Definition requests_after_register : list (Session * Request) :=
  [ (session_of 1, req_new_post (POST form_T) today_example);
    (anonymous_session,
     req_register (POST (RegisterForm.mk "b@x.com" "pw2" "Bob")) "salt2") ].

(** ** Properties of the stored rows *)

(** A key names exactly one row of a table. *)
Definition exactly_one {A : Type} (key : A -> nat) (rows : list A)
    (k : option nat) : Prop :=
  exists! row, In row rows /\ k = Some (key row).

(** Every comment belongs to exactly one existing post and exactly one
    existing user. *)
Definition referential_integrity (db : DB) : Prop :=
  forall c, In c (comments db) ->
    exactly_one BlogPost.id (blog_posts db) (Comment.post_id c)
    /\ exactly_one User.id (users db) (Comment.author_id c).

(** Every comment belongs to exactly one existing user, and to exactly one
    existing post unless its post reference is null. *)
Definition comments_resolved (db : DB) : Prop :=
  forall c, In c (comments db) ->
    (Comment.post_id c = None
     \/ exactly_one BlogPost.id (blog_posts db) (Comment.post_id c))
    /\ exactly_one User.id (users db) (Comment.author_id c).

(** A foreign key is set and is the key of some row. *)
Definition key_in {A : Type} (key : A -> nat) (rows : list A)
    (k : option nat) : Prop :=
  exists n, k = Some n /\ In n (map key rows).

(** Primary keys of users and posts are unique, every comment's author is
    the key of a user, and its post is null or the key of a post. *)
Definition consistent (db : DB) : Prop :=
  NoDup (map User.id (users db))
  /\ NoDup (map BlogPost.id (blog_posts db))
  /\ forall c, In c (comments db) ->
       (Comment.post_id c = None
        \/ key_in BlogPost.id (blog_posts db) (Comment.post_id c))
       /\ key_in User.id (users db) (Comment.author_id c).

(** What a request may do to the database: the users table only gains
    rows at its end, and consistency is kept. *)
Definition grows (db db' : DB) : Prop :=
  (exists more, users db' = users db ++ more)
  /\ (consistent db -> consistent db').

(** The current identity is the administrator. *)
Definition is_admin (db : DB) (s : Session) : Prop :=
  exists user, current_user db s = LoggedIn user /\ User.id user = 1.

(** No post of the table has this key. *)
Definition no_post (db : DB) (post_id : nat) : Prop :=
  forall p, In p (blog_posts db) -> BlogPost.id p <> post_id.

(** No post other than [post_id] carries this title. *)
Definition title_free (db : DB) (post_id : option nat) (title : string)
  : Prop :=
  forall p, In p (blog_posts db) ->
    Some (BlogPost.id p) <> post_id -> BlogPost.title p <> title.

(** ** Keys, unique columns and commits *)

(** Keys start at 1 and increase along the table. *)
Definition keys_ascending (ids : list nat) : Prop :=
  Forall (fun k => 1 <= k) ids /\ StronglySorted lt ids.

Definition well_keyed (db : DB) : Prop :=
  keys_ascending (map User.id (users db))
  /\ keys_ascending (map BlogPost.id (blog_posts db))
  /\ keys_ascending (map Comment.id (comments db)).

(** The columns declared [unique=True] (lines 44 and 56) hold no value
    twice. *)
Definition unique_columns (db : DB) : Prop :=
  NoDup (map User.email (users db))
  /\ NoDup (map BlogPost.title (blog_posts db)).

(** What is left of a comment when its post reference is put aside. *)
Definition comment_core (c : Comment.t) : nat * option nat * string :=
  (Comment.id c, Comment.author_id c, Comment.text c).

(** The commits of the handlers: none, a user, post or comment added, a
    post updated, a post deleted, each with what the handler has checked
    before it. *)
Inductive transition (db : DB) (s : Session) : DB -> Prop :=
| no_commit : transition db s db
| user_added (email password name : string) :
    (forall u, In u (users db) -> User.email u <> email) ->
    transition db s
      (mkDB (users db
             ++ [User.mk (autoincrement (map User.id (users db)))
                         email password name])
            (blog_posts db) (comments db))
| post_added (title subtitle date body img_url : string) :
    is_admin db s ->
    title_free db None title ->
    transition db s
      (mkDB (users db)
            (blog_posts db
             ++ [BlogPost.mk (autoincrement (map BlogPost.id (blog_posts db)))
                             (Some 1) title subtitle date body img_url])
            (comments db))
| comment_added (user : User.t) (post : option BlogPost.t) (text : string) :
    current_user db s = LoggedIn user ->
    (forall p, post = Some p -> In p (blog_posts db)) ->
    transition db s
      (mkDB (users db) (blog_posts db)
            (comments db
             ++ [Comment.mk (autoincrement (map Comment.id (comments db)))
                            (Some (User.id user))
                            (option_map BlogPost.id post) text]))
| post_updated (post_id : nat) (title subtitle body img_url : string) :
    is_admin db s ->
    title_free db (Some post_id) title ->
    transition db s
      (mkDB (users db)
            (map (fun p => if BlogPost.id p =? post_id
                           then set_post_fields title subtitle body img_url p
                           else p) (blog_posts db))
            (comments db))
| post_deleted (post_id : nat) :
    is_admin db s ->
    transition db s (commit_delete_post db post_id).

(** The requests that may change who is logged in. *)
Definition changes_identity (r : Request) : bool :=
  match r with
  | req_register _ _ | req_login _ | req_logout => true
  | _ => false
  end.

(** The requests that may write to each table. *)
Definition writes_users (r : Request) : bool :=
  match r with
  | req_register _ _ => true
  | _ => false
  end.

Definition writes_posts (r : Request) : bool :=
  match r with
  | req_new_post _ _ | req_edit_post _ _ | req_delete _ => true
  | _ => false
  end.

Definition writes_comments (r : Request) : bool :=
  match r with
  | req_show_post _ _ | req_delete _ => true
  | _ => false
  end.

(** A day of the month. *)
Definition valid_day (today : datetime) : Prop := 1 <= day today <= 31.

Definition newline : string := String (ascii_of_nat 10) EmptyString.

(** The message composed by [contact] (lines 237-238); it exists when the
    four keys are in [request.form]. *)
Definition contact_message (data : list (string * string)) : option string :=
  match form_get data "nam", form_get data "emai",
        form_get data "phon", form_get data "messag" with
  | Some nam, Some emai, Some phon, Some messag =>
      Some ("New 'contact me' message" ++ newline ++ newline
            ++ "From: " ++ nam ++ newline
            ++ "E-mail: " ++ emai ++ newline
            ++ "Phone: " ++ phon ++ newline
            ++ "Message: " ++ messag)%string
  | _, _, _, _ => None
  end.

Definition comment_on_T : Comment.t := Comment.mk 1 (Some 2) (Some 1) "hi".
Definition comment_on_U : Comment.t := Comment.mk 2 (Some 2) (Some 2) "yo".

Definition db_commented : DB :=
  mkDB [alice; bob] [post_T; post_U] [comment_on_T; comment_on_U].

Definition carol_form : RegisterForm.t :=
  RegisterForm.mk "c@x.com" "pw3" "Carol".

Definition login_bob : LoginForm.t := LoginForm.mk "b@x.com" "pw2".

Definition contact_data : list (string * string) :=
  [ ("nam", "Dan"); ("emai", "d@x.com"); ("phon", "555");
    ("messag", "hello") ].

(** * Lemmas on tables *)

Lemma list_max_bound (ids : list nat) (k : nat) :
  In k ids -> k <= list_max ids.
Proof.
  induction ids as [|i ids IH]; simpl; intros H.
  - contradiction.
  - destruct H as [-> | H]; [lia | specialize (IH H); lia].
Qed.

Lemma autoincrement_fresh (ids : list nat) : ~ In (autoincrement ids) ids.
Proof.
  unfold autoincrement; intros H.
  apply list_max_bound in H; lia.
Qed.

Lemma find_none_iff {A : Type} (f : A -> bool) (l : list A) :
  find f l = None <-> forall x, In x l -> f x = false.
Proof.
  split.
  - apply find_none.
  - induction l as [|a l IH]; simpl; intros H; [reflexivity|].
    rewrite (H a (or_introl eq_refl)).
    apply IH; intros x Hx; apply H; now right.
Qed.

Lemma find_app_found {A : Type} (f : A -> bool) (l l' : list A) (x : A) :
  find f l = Some x -> find f (l ++ l') = Some x.
Proof.
  induction l as [|a l IH]; simpl; [discriminate|].
  destruct (f a); auto.
Qed.

Lemma find_app_missing {A : Type} (f : A -> bool) (l l' : list A) :
  find f l = None -> find f (l ++ l') = find f l'.
Proof.
  induction l as [|a l IH]; simpl; [reflexivity|].
  destruct (f a); [discriminate | auto].
Qed.

Lemma existsb_false_iff {A : Type} (f : A -> bool) (l : list A) :
  existsb f l = false <-> forall x, In x l -> f x = false.
Proof.
  induction l as [|a l IH]; simpl.
  - split; [intros _ x [] | reflexivity].
  - rewrite orb_false_iff, IH; split.
    + intros [Ha Hl] x [<- | Hx]; auto.
    + intros H; split; [apply H; now left | intros x Hx; apply H; now right].
Qed.

Lemma no_post_query_get (db : DB) (post_id : nat) :
  no_post db post_id <-> BlogPost_query_get db post_id = None.
Proof.
  unfold no_post, BlogPost_query_get; rewrite find_none_iff.
  split; intros H p Hp.
  - apply Nat.eqb_neq; auto.
  - apply Nat.eqb_neq; auto.
Qed.

Lemma sqlite_integer_spec (n : nat) :
  sqlite_integer n = true <-> n < 2 ^ 63.
Proof.
  unfold sqlite_integer; rewrite N.ltb_lt.
  replace (2 ^ 63)%N with (N.of_nat (2 ^ 63));
    [lia | now rewrite Nat2N.inj_pow].
Qed.

Lemma query_get_executed_found (db : DB) (post_id : nat) (post : BlogPost.t) :
  BlogPost_query_get db post_id = Some post ->
  BlogPost_query_get_executed db post_id = Ok (Some post).
Proof.
  intros H; unfold BlogPost_query_get_executed; now rewrite H.
Qed.

Lemma query_get_executed_missing (db : DB) (post_id : nat) :
  BlogPost_query_get db post_id = None ->
  BlogPost_query_get_executed db post_id
  = if sqlite_integer post_id then Ok None else Raise OverflowError.
Proof.
  intros H; unfold BlogPost_query_get_executed; now rewrite H.
Qed.

Lemma query_get_executed_ok (db : DB) (post_id : nat)
    (found : option BlogPost.t) :
  BlogPost_query_get_executed db post_id = Ok found ->
  found = BlogPost_query_get db post_id.
Proof.
  unfold BlogPost_query_get_executed.
  destruct (BlogPost_query_get db post_id) as [post|].
  - now intros [= <-].
  - destruct (sqlite_integer post_id); [now intros [= <-] | discriminate].
Qed.

Lemma find_requested_post_snoc (posts : list BlogPost.t) (post : BlogPost.t)
    (index : nat) :
  find_requested_post (posts ++ [post]) index
  = if BlogPost.id post =? index then Some post
    else find_requested_post posts index.
Proof.
  unfold find_requested_post; now rewrite fold_left_app.
Qed.

Lemma find_requested_post_some (posts : list BlogPost.t) (index : nat)
    (post : BlogPost.t) :
  find_requested_post posts index = Some post ->
  In post posts /\ BlogPost.id post = index.
Proof.
  induction posts as [|a posts IH] using rev_ind.
  - discriminate.
  - rewrite find_requested_post_snoc.
    destruct (BlogPost.id a =? index) eqn:E.
    + intros [= ->]; split; [apply in_or_app; right; now left|].
      now apply Nat.eqb_eq.
    + intros H; destruct (IH H); split; [apply in_or_app; now left | assumption].
Qed.

Lemma find_requested_post_found (posts : list BlogPost.t) (index : nat) :
  (exists p, In p posts /\ BlogPost.id p = index) ->
  exists post, find_requested_post posts index = Some post.
Proof.
  induction posts as [|a posts IH] using rev_ind; intros (p & Hin & Hid).
  - contradiction.
  - rewrite find_requested_post_snoc.
    destruct (BlogPost.id a =? index) eqn:E; [now exists a|].
    apply IH; exists p; split; [|assumption].
    apply in_app_or in Hin; destruct Hin as [Hin | [<- | []]]; [assumption|].
    apply Nat.eqb_neq in E; contradiction.
Qed.

Lemma title_free_new (db : DB) (title : string) :
  title_free db None title ->
  existsb (fun p => (BlogPost.title p =? title)%string) (blog_posts db) = false.
Proof.
  intros H; apply existsb_false_iff; intros p Hp.
  apply String.eqb_neq, (H p Hp); discriminate.
Qed.

Lemma title_free_other (db : DB) (post_id : nat) (title : string) :
  title_free db (Some post_id) title ->
  existsb (fun p => negb (BlogPost.id p =? post_id)
                    && (BlogPost.title p =? title)%string) (blog_posts db)
  = false.
Proof.
  intros H; apply existsb_false_iff; intros p Hp.
  destruct (BlogPost.id p =? post_id) eqn:E; [reflexivity|]; simpl.
  apply String.eqb_neq, (H p Hp); intros [= Heq].
  apply Nat.eqb_neq in E; contradiction.
Qed.

Lemma find_key_map {A : Type} (key : A -> nat) (g : A -> A) (k : nat)
    (l : list A) :
  (forall x, key (g x) = key x) ->
  find (fun x => key x =? k) (map g l)
  = option_map g (find (fun x => key x =? k) l).
Proof.
  intros Hkey; induction l as [|a l IH]; simpl; [reflexivity|].
  rewrite Hkey; destruct (key a =? k); [reflexivity | assumption].
Qed.

Lemma find_key_eq {A : Type} (key : A -> nat) (k : nat) (l : list A) (x : A) :
  find (fun x => key x =? k) l = Some x -> key x = k.
Proof.
  intros H; apply find_some in H; now apply Nat.eqb_eq.
Qed.

Lemma current_user_users (db db' : DB) (s : Session) :
  users db' = users db -> current_user db' s = current_user db s.
Proof.
  intros H; unfold current_user, load_user, User_query_get; now rewrite H.
Qed.

Lemma current_user_in (db : DB) (s : Session) (user : User.t) :
  current_user db s = LoggedIn user -> In user (users db).
Proof.
  unfold current_user, load_user, User_query_get.
  destruct (user_id s) as [uid|]; [|discriminate].
  destruct (find _ _) as [u|] eqn:E; [|discriminate].
  intros [= <-]; now apply find_some in E.
Qed.

Lemma NoDup_snoc {A : Type} (l : list A) (x : A) :
  NoDup l -> ~ In x l -> NoDup (l ++ [x]).
Proof.
  induction l as [|a l IH]; simpl; intros Hl Hx.
  - constructor; [intros [] | constructor].
  - inversion Hl as [|? ? Ha Hl']; subst; constructor.
    + intros Hin; apply in_app_or in Hin; destruct Hin as [Hin | [-> | []]].
      * contradiction.
      * apply Hx; now left.
    + apply IH; [assumption | intros Hin; apply Hx; now right].
Qed.

Lemma NoDup_map_filter {A : Type} (key : A -> nat) (f : A -> bool)
    (l : list A) :
  NoDup (map key l) -> NoDup (map key (filter f l)).
Proof.
  induction l as [|a l IH]; simpl; intros H; [constructor|].
  inversion H as [|? ? Ha Hl]; subst.
  destruct (f a); simpl; [constructor|]; auto.
  intros Hin; apply Ha.
  apply in_map_iff in Hin; destruct Hin as (x & Hx & Hin).
  apply filter_In in Hin; rewrite <- Hx; apply in_map; tauto.
Qed.

Lemma NoDup_key_inj {A : Type} (key : A -> nat) (l : list A) (x y : A) :
  NoDup (map key l) -> In x l -> In y l -> key x = key y -> x = y.
Proof.
  induction l as [|a l IH]; simpl; intros H Hx Hy E; [contradiction|].
  inversion H as [|? ? Ha Hl]; subst.
  destruct Hx as [-> | Hx], Hy as [-> | Hy]; auto.
  - exfalso; apply Ha; rewrite E; now apply in_map.
  - exfalso; apply Ha; rewrite <- E; now apply in_map.
Qed.

Lemma key_in_exactly_one {A : Type} (key : A -> nat) (rows : list A)
    (k : option nat) :
  NoDup (map key rows) -> key_in key rows k -> exactly_one key rows k.
Proof.
  intros Hnd (n & -> & Hin).
  apply in_map_iff in Hin; destruct Hin as (row & <- & Hrow).
  exists row; split; [split; [assumption | reflexivity]|].
  intros row' (Hrow' & [= E]).
  now apply (NoDup_key_inj key rows).
Qed.

Lemma key_in_app {A : Type} (key : A -> nat) (rows more : list A)
    (k : option nat) :
  key_in key rows k -> key_in key (rows ++ more) k.
Proof.
  intros (n & -> & Hin); exists n; split; [reflexivity|].
  rewrite map_app; apply in_or_app; now left.
Qed.

Lemma key_in_row {A : Type} (key : A -> nat) (rows : list A) (row : A) :
  In row rows -> key_in key rows (Some (key row)).
Proof.
  intros Hin; exists (key row); split; [reflexivity | now apply in_map].
Qed.

Lemma consistent_resolved (db : DB) : consistent db -> comments_resolved db.
Proof.
  intros (Hu & Hp & Hc) c Hin; destruct (Hc c Hin) as [Hpost Hauthor]; split.
  - destruct Hpost as [Hnull | Hkey]; [now left | right].
    now apply key_in_exactly_one.
  - now apply key_in_exactly_one.
Qed.

Lemma consistent_empty : consistent empty_db.
Proof.
  repeat split; simpl; try constructor; contradiction.
Qed.

Lemma consistent_add_user (db : DB) (user : User.t) :
  consistent db ->
  ~ In (User.id user) (map User.id (users db)) ->
  consistent (mkDB (users db ++ [user]) (blog_posts db) (comments db)).
Proof.
  intros (Hu & Hp & Hc) Hfresh; split; [|split]; simpl.
  - rewrite map_app; now apply NoDup_snoc.
  - assumption.
  - intros c Hin; destruct (Hc c Hin) as [Hpost Hauthor].
    split; [assumption | now apply key_in_app].
Qed.

Lemma consistent_add_post (db : DB) (post : BlogPost.t) :
  consistent db ->
  ~ In (BlogPost.id post) (map BlogPost.id (blog_posts db)) ->
  consistent (mkDB (users db) (blog_posts db ++ [post]) (comments db)).
Proof.
  intros (Hu & Hp & Hc) Hfresh; split; [|split]; simpl.
  - assumption.
  - rewrite map_app; now apply NoDup_snoc.
  - intros c Hin; destruct (Hc c Hin) as [[Hnull | Hkey] Hauthor].
    + split; [now left | assumption].
    + split; [right; now apply key_in_app | assumption].
Qed.

Lemma consistent_add_comment (db : DB) (c : Comment.t) :
  consistent db ->
  Comment.post_id c = None
  \/ key_in BlogPost.id (blog_posts db) (Comment.post_id c) ->
  key_in User.id (users db) (Comment.author_id c) ->
  consistent (mkDB (users db) (blog_posts db) (comments db ++ [c])).
Proof.
  intros (Hu & Hp & Hc) Hpost Hauthor; split; [|split]; simpl; try assumption.
  intros c' Hin; apply in_app_or in Hin.
  destruct Hin as [Hin | [<- | []]]; [now apply Hc | now split].
Qed.

Lemma consistent_update_posts (db : DB) (g : BlogPost.t -> BlogPost.t) :
  (forall p, BlogPost.id (g p) = BlogPost.id p) ->
  consistent db ->
  consistent (mkDB (users db) (map g (blog_posts db)) (comments db)).
Proof.
  intros Hkey (Hu & Hp & Hc).
  assert (E : map BlogPost.id (map g (blog_posts db))
              = map BlogPost.id (blog_posts db)).
  { rewrite map_map; apply map_ext; exact Hkey. }
  unfold consistent, key_in; simpl; rewrite E; auto.
Qed.

Lemma consistent_delete_post (db : DB) (post_id : nat) :
  consistent db -> consistent (commit_delete_post db post_id).
Proof.
  intros (Hu & Hp & Hc); split; [|split]; simpl.
  - assumption.
  - now apply NoDup_map_filter.
  - intros c' Hin; apply in_map_iff in Hin; destruct Hin as (c & <- & Hin).
    destruct (Hc c Hin) as [Hpost Hauthor].
    unfold nullify_post.
    destruct (Comment.post_id c) as [pid|] eqn:Epid; [|split; auto].
    destruct (pid =? post_id) eqn:E; simpl; [split; auto|].
    rewrite Epid; split; [|assumption].
    destruct Hpost as [Hnull | (n & [= <-] & Hn)]; [discriminate | right].
    exists pid; split; [reflexivity|].
    apply in_map_iff in Hn; destruct Hn as (p & Hp1 & Hp2).
    apply in_map_iff; exists p; split; [assumption|].
    apply filter_In; split; [assumption|].
    rewrite Hp1, E; reflexivity.
Qed.

Lemma grows_refl (db : DB) : grows db db.
Proof.
  split; [exists []; now rewrite app_nil_r | auto].
Qed.

Lemma grows_trans (db1 db2 db3 : DB) :
  grows db1 db2 -> grows db2 db3 -> grows db1 db3.
Proof.
  intros [(m1 & E1) H1] [(m2 & E2) H2]; split; [|auto].
  exists (m1 ++ m2); now rewrite E2, E1, app_assoc.
Qed.

Lemma grows_same_users (db db' : DB) :
  users db' = users db -> (consistent db -> consistent db') -> grows db db'.
Proof.
  intros E H; split; [exists []; now rewrite app_nil_r | assumption].
Qed.

(** * The claims *)

Section Properties.

Context {forms : Forms} {hasher : PasswordHasher}.

(** A logged-in user other than the administrator gets a 403: the wrapped
    function is not called and neither the database nor the session
    changes. *)
Lemma admin_only_forbidden (function_x : Handler) (db : DB) (s : Session)
    (user : User.t) :
  current_user db s = LoggedIn user ->
  User.id user <> 1 ->
  admin_only function_x db s = Ok (db, s, Abort 403).
Proof.
  intros Hcu Hid; unfold admin_only; rewrite Hcu; simpl.
  apply Nat.eqb_neq in Hid; now rewrite Hid.
Qed.

(** X1: to a logged-in user whose key is not 1 the new-post, edit-post
    and delete-post handlers answer 403, whatever the request, and leave
    the database and the session as they were. *)
Lemma non_admin_forbidden (db : DB) (s : Session) (user : User.t) :
  current_user db s = LoggedIn user ->
  User.id user <> 1 ->
  (forall sub today, new_post sub today db s = Ok (db, s, Abort 403))
  /\ (forall post_id sub, edit_post post_id sub db s = Ok (db, s, Abort 403))
  /\ (forall post_id, delete post_id db s = Ok (db, s, Abort 403)).
Proof.
  intros Hcu Hid; repeat split; intros;
    now apply (admin_only_forbidden _ db s user).
Qed.

Lemma admin_only_admin (function_x : Handler) (db : DB) (s : Session) :
  is_admin db s -> admin_only function_x db s = function_x db s.
Proof.
  intros (user & Hcu & Hid); unfold admin_only; rewrite Hcu; simpl.
  now rewrite Hid.
Qed.

(** C1: on a request without a logged-in user, the [admin_only] wrapper
    does not answer 403: reading [current_user.id] raises [AttributeError]
    before the comparison with 1, whatever the wrapped handler is; so do
    the new-post, edit-post and delete-post handlers. *)
Theorem admin_only_anonymous_raises :
  forall (function_x : Handler) (db : DB) (pending : list string),
    let s := mkSession None pending in
    admin_only function_x db s = Raise AttributeError
    /\ admin_only function_x db s <> Ok (db, s, Abort 403)
    /\ (forall sub today, new_post sub today db s = Raise AttributeError)
    /\ (forall post_id sub, edit_post post_id sub db s = Raise AttributeError)
    /\ (forall post_id, delete post_id db s = Raise AttributeError).
Proof.
  intros function_x db fl s.
  repeat split; try reflexivity.
  discriminate.
Qed.

(** C4: when a user with the submitted email exists, a registration POST
    leaves the database as it is (no user row is added), queues the
    duplicate-email flash message and redirects to the login page. *)
Theorem register_duplicate_email :
  forall (db : DB) (s : Session) (form : RegisterForm.t) (salt : string)
         (user : User.t),
    RegisterForm_validate form = true ->
    In user (users db) ->
    User.email user = RegisterForm.email form ->
    register (POST form) salt db s
    = Ok (db,
          flash "You've already signed up with that email, log in instead!" s,
          Redirect url_login).
Proof.
  intros db s form salt user Hv Hin Hmail.
  unfold register; simpl; rewrite Hv.
  destruct (User_query_filter_by_email_first db (RegisterForm.email form))
    as [found|] eqn:Hfind; [reflexivity|].
  unfold User_query_filter_by_email_first in Hfind.
  apply (find_none _ _ Hfind) in Hin.
  rewrite Hmail, String.eqb_refl in Hin; discriminate.
Qed.

(** C9: a login POST whose email matches no user returns normally: the
    database is unchanged, the session keeps its identity and gains one
    flash message, and the response redirects to the login page. *)
Theorem login_unknown_email :
  forall (db : DB) (s : Session) (form : LoginForm.t),
    LoginForm_validate form = true ->
    (forall user, In user (users db) ->
                  User.email user <> LoginForm.email form) ->
    exists s',
      login (POST form) db s = Ok (db, s', Redirect url_login)
      /\ user_id s' = user_id s
      /\ flashes s'
         = flashes s ++ ["That email does not exist, please try again"].
Proof.
  intros db s form Hv Hnone.
  exists (flash "That email does not exist, please try again" s).
  repeat split.
  unfold login; simpl; rewrite Hv.
  replace (User_query_filter_by_email_first db (LoginForm.email form))
    with (@None User.t); [reflexivity|].
  symmetry; apply find_none_iff; intros u Hu.
  apply String.eqb_neq; auto.
Qed.

(** C10: for a post id that matches no post, an administrator's request to
    edit-post (GET or POST) or to delete-post produces no response: it
    raises.  For an id that is a 64-bit integer the lookup returns [None]
    and edit-post raises [AttributeError] on reading its title, delete-post
    [UnmappedInstanceError] on deleting it; for a larger id the lookup
    itself raises [OverflowError] and no row is dereferenced. *)
Theorem edit_delete_missing_post_raise :
  forall (db : DB) (s : Session) (post_id : nat),
    is_admin db s ->
    no_post db post_id ->
    (forall sub,
        edit_post post_id sub db s
        = Raise (if sqlite_integer post_id then AttributeError
                 else OverflowError))
    /\ delete post_id db s
       = Raise (if sqlite_integer post_id then UnmappedInstanceError
                else OverflowError).
Proof.
  intros db s post_id Hadmin Hmissing.
  apply no_post_query_get in Hmissing.
  split; [intros sub|]; unfold edit_post, delete;
    rewrite (admin_only_admin _ _ _ Hadmin).
  - unfold edit_post_body.
    rewrite (query_get_executed_missing _ _ Hmissing).
    now destruct (sqlite_integer post_id).
  - unfold delete_body.
    rewrite (query_get_executed_missing _ _ Hmissing).
    now destruct (sqlite_integer post_id).
Qed.

(** C2: with a validated comment form, a logged-in user and a path id that
    names an existing post, show-post appends one comment whose author is
    the submitting user and whose post is the viewed one, and changes
    nothing else; without a logged-in user no request to show-post changes
    the database, and a validated submission is answered with a flash
    message and a redirect to the login page. *)
Theorem show_post_comment :
  forall (db : DB) (s : Session) (index : nat) (form : CommentForm.t),
    CommentForm_validate form = true ->
    (forall user,
        current_user db s = LoggedIn user ->
        (exists p, In p (blog_posts db) /\ BlogPost.id p = index) ->
        exists new_comment post,
          show_post index (POST form) db s
          = Ok (mkDB (users db) (blog_posts db) (comments db ++ [new_comment]),
                s, Render (post_html (Some post) (comments db)))
          /\ In post (blog_posts db)
          /\ BlogPost.id post = index
          /\ Comment.author_id new_comment = Some (User.id user)
          /\ Comment.post_id new_comment = Some index
          /\ Comment.text new_comment = CommentForm.comment form)
    /\ (current_user db s = AnonymousUserMixin ->
        show_post index (POST form) db s
        = Ok (db, flash "YOu need to login or register to comment" s,
              Redirect url_login)
        /\ forall sub, exists s' resp,
             show_post index sub db s = Ok (db, s', resp)).
Proof.
  intros db s index form Hv; split.
  - intros user Hcu Hex.
    destruct (find_requested_post_found _ _ Hex) as (post & Hpost).
    destruct (find_requested_post_some _ _ _ Hpost) as (Hin & Hid).
    unfold show_post; simpl; rewrite Hv, Hcu; simpl.
    unfold BlogPost_query_all; rewrite Hpost; simpl.
    eexists; exists post; split; [reflexivity|]; simpl.
    rewrite Hid; repeat split; assumption.
  - intros Hcu; split.
    + unfold show_post; simpl; now rewrite Hv, Hcu.
    + intros sub; unfold show_post.
      destruct (validate_on_submit CommentForm_validate sub);
        rewrite ?Hcu; simpl; eauto.
Qed.

(** C6: when the administrator submits a validated edit form for an
    existing post and no other post carries the submitted title, edit-post
    sets the post's title, subtitle, body and image URL to the submitted
    values, keeps its key, author and date, leaves every other post and the
    users and comments tables as they are, and redirects to the post's
    page. *)
Theorem edit_post_frame :
  forall (db : DB) (s : Session) (post_id : nat) (form : CreatePostForm.t)
         (post : BlogPost.t),
    is_admin db s ->
    CreatePostForm_validate form = true ->
    BlogPost_query_get db post_id = Some post ->
    title_free db (Some post_id) (CreatePostForm.title form) ->
    let edited p :=
      BlogPost.mk (BlogPost.id p) (BlogPost.author_id p)
                  (CreatePostForm.title form) (CreatePostForm.subtitle form)
                  (BlogPost.date p)
                  (CreatePostForm.body form) (CreatePostForm.img_url form) in
    exists db',
      edit_post post_id (POST form) db s
      = Ok (db', s, Redirect (url_show_post post_id))
      /\ users db' = users db
      /\ comments db' = comments db
      /\ blog_posts db'
         = map (fun p => if BlogPost.id p =? post_id then edited p else p)
               (blog_posts db)
      /\ BlogPost_query_get db' post_id = Some (edited post)
      /\ BlogPost.id (edited post) = post_id
      /\ forall other, other <> post_id ->
           BlogPost_query_get db' other = BlogPost_query_get db other.
Proof.
  intros db s post_id form post Hadmin Hv Hget Hfree edited.
  pose proof (find_key_eq _ _ _ _ Hget) as Hid.
  unfold edit_post; rewrite (admin_only_admin _ _ _ Hadmin).
  unfold edit_post_body; rewrite (query_get_executed_found _ _ _ Hget).
  simpl; rewrite Hv.
  unfold commit_update_post; rewrite Hid, (title_free_other _ _ _ Hfree); simpl.
  eexists; split; [reflexivity|]; simpl.
  assert (Hkey : forall p,
             BlogPost.id (if BlogPost.id p =? post_id
                          then set_post_fields (CreatePostForm.title form)
                                 (CreatePostForm.subtitle form)
                                 (CreatePostForm.body form)
                                 (CreatePostForm.img_url form) p
                          else p) = BlogPost.id p).
  { intros p; now destruct (BlogPost.id p =? post_id). }
  repeat split; try assumption.
  - unfold BlogPost_query_get in *; simpl.
    rewrite (find_key_map BlogPost.id _ post_id _ Hkey), Hget; simpl.
    apply Nat.eqb_eq in Hid; now rewrite Hid.
  - intros other Hother; unfold BlogPost_query_get; simpl.
    rewrite (find_key_map BlogPost.id _ other _ Hkey).
    destruct (find _ (blog_posts db)) as [q|] eqn:Hq; [|reflexivity]; simpl.
    apply find_key_eq in Hq.
    destruct (BlogPost.id q =? post_id) eqn:E; [|reflexivity].
    apply Nat.eqb_eq in E; congruence.
Qed.

Lemma new_post_body_creates (db : DB) (s : Session)
    (form : CreatePostForm.t) (today : datetime) :
  CreatePostForm_validate form = true ->
  title_free db None (CreatePostForm.title form) ->
  new_post_body (POST form) today db s
  = Ok (mkDB (users db)
             (blog_posts db
              ++ [BlogPost.mk (autoincrement (map BlogPost.id (blog_posts db)))
                              (identity_key (current_user db s))
                              (CreatePostForm.title form)
                              (CreatePostForm.subtitle form)
                              (strftime_B_d_Y today)
                              (CreatePostForm.body form)
                              (CreatePostForm.img_url form)])
             (comments db),
        s, Redirect url_get_all_posts).
Proof.
  intros Hv Hfree.
  unfold new_post_body; simpl; rewrite Hv.
  unfold commit_add_post; now rewrite (title_free_new _ _ Hfree).
Qed.

(** C8: when the administrator submits a validated new-post form whose
    title no post carries yet, new-post appends one post with the next
    key, the submitted fields, the current identity as author and the
    server date formatted by [%B %d, %Y], changes nothing else, and
    redirects to the post list. *)
Theorem new_post_creates :
  forall (db : DB) (s : Session) (form : CreatePostForm.t) (today : datetime)
         (user : User.t),
    current_user db s = LoggedIn user ->
    User.id user = 1 ->
    CreatePostForm_validate form = true ->
    title_free db None (CreatePostForm.title form) ->
    new_post (POST form) today db s
    = Ok (mkDB (users db)
               (blog_posts db
                ++ [BlogPost.mk (autoincrement (map BlogPost.id (blog_posts db)))
                                (Some (User.id user))
                                (CreatePostForm.title form)
                                (CreatePostForm.subtitle form)
                                (strftime_B_d_Y today)
                                (CreatePostForm.body form)
                                (CreatePostForm.img_url form)])
               (comments db),
          s, Redirect url_get_all_posts).
Proof.
  intros db s form today user Hcu Hid Hv Hfree.
  unfold new_post.
  rewrite admin_only_admin by (exists user; auto).
  rewrite (new_post_body_creates _ _ _ _ Hv Hfree), Hcu.
  reflexivity.
Qed.

(** C7: a post created by the administrator is read back by its key with
    the submitted fields; after the administrator deletes it by that key,
    reading it by key finds nothing and the post list no longer has it. *)
Theorem post_round_trip :
  forall (db : DB) (s : Session) (form : CreatePostForm.t) (today : datetime),
    is_admin db s ->
    CreatePostForm_validate form = true ->
    title_free db None (CreatePostForm.title form) ->
    exists db1 new_blog,
      new_post (POST form) today db s = Ok (db1, s, Redirect url_get_all_posts)
      /\ BlogPost_query_get db1 (BlogPost.id new_blog) = Some new_blog
      /\ BlogPost.title new_blog = CreatePostForm.title form
      /\ BlogPost.subtitle new_blog = CreatePostForm.subtitle form
      /\ BlogPost.body new_blog = CreatePostForm.body form
      /\ BlogPost.img_url new_blog = CreatePostForm.img_url form
      /\ BlogPost.date new_blog = strftime_B_d_Y today
      /\ BlogPost.author_id new_blog = Some 1
      /\ exists db2,
           delete (BlogPost.id new_blog) db1 s
           = Ok (db2, s, Redirect url_get_all_posts)
           /\ BlogPost_query_get db2 (BlogPost.id new_blog) = None
           /\ get_all_posts db2 s
              = Ok (db2, s, Render (index_html (blog_posts db2)))
           /\ no_post db2 (BlogPost.id new_blog).
Proof.
  intros db s form today Hadmin Hv Hfree.
  unfold new_post; rewrite (admin_only_admin _ _ _ Hadmin).
  rewrite (new_post_body_creates _ _ _ _ Hv Hfree).
  destruct Hadmin as (user & Hcu & Hid); rewrite Hcu; simpl identity_key.
  set (new_blog := BlogPost.mk _ _ _ _ _ _ _).
  set (db1 := mkDB _ _ _).
  assert (Hget : BlogPost_query_get db1 (BlogPost.id new_blog) = Some new_blog).
  { unfold BlogPost_query_get, db1; simpl.
    rewrite find_app_missing; [simpl; now rewrite Nat.eqb_refl|].
    apply find_none_iff; intros p Hp; apply Nat.eqb_neq; intros E.
    apply (autoincrement_fresh (map BlogPost.id (blog_posts db))).
    rewrite <- E; now apply in_map. }
  assert (Hadmin1 : is_admin db1 s).
  { exists user; split; [|assumption].
    now rewrite (current_user_users db db1 s eq_refl). }
  exists db1, new_blog; repeat split; try assumption.
  - simpl; now rewrite Hid.
  - exists (commit_delete_post db1 (BlogPost.id new_blog)).
    assert (Hgone : no_post (commit_delete_post db1 (BlogPost.id new_blog))
                            (BlogPost.id new_blog)).
    { intros p Hp; simpl in Hp; apply filter_In in Hp; destruct Hp as [_ Hp].
      apply Nat.eqb_neq; now destruct (BlogPost.id p =? _). }
    repeat split; [| now apply no_post_query_get | assumption].
    unfold delete; rewrite (admin_only_admin _ _ _ Hadmin1).
    unfold delete_body; now rewrite (query_get_executed_found _ _ _ Hget).
Qed.

(** *** What each handler does to the database *)

Lemma admin_only_cases (function_x : Handler) (db : DB) (s : Session)
    (o : Outcome) :
  admin_only function_x db s = Ok o ->
  o = (db, s, Abort 403) \/ function_x db s = Ok o.
Proof.
  unfold admin_only.
  destruct (current_user_id (current_user db s)) as [uid|]; simpl;
    [|discriminate].
  destruct (negb (uid =? 1)); [intros [= <-]; now left | now right].
Qed.

Lemma register_grows sub salt db s db' s' resp :
  register sub salt db s = Ok (db', s', resp) -> grows db db'.
Proof.
  unfold register.
  destruct (validate_on_submit RegisterForm_validate sub) as [form|];
    [|intros [= <- _ _]; apply grows_refl].
  destruct (User_query_filter_by_email_first db (RegisterForm.email form));
    [intros [= <- _ _]; apply grows_refl|].
  unfold commit_add_user.
  destruct (existsb _ (users db)); simpl; [discriminate|].
  intros [= <- _ _]; split; simpl; [eauto|].
  intros H; apply consistent_add_user; [assumption|].
  apply autoincrement_fresh.
Qed.

Lemma login_grows sub db s db' s' resp :
  login sub db s = Ok (db', s', resp) -> grows db db'.
Proof.
  unfold login.
  destruct (validate_on_submit LoginForm_validate sub) as [form|];
    [|intros [= <- _ _]; apply grows_refl].
  destruct (User_query_filter_by_email_first db (LoginForm.email form))
    as [user|]; [|intros [= <- _ _]; apply grows_refl].
  destruct (check_password_hash _ _); intros [= <- _ _]; apply grows_refl.
Qed.

Lemma show_post_grows index sub db s db' s' resp :
  show_post index sub db s = Ok (db', s', resp) -> grows db db'.
Proof.
  unfold show_post.
  destruct (validate_on_submit CommentForm_validate sub) as [form|];
    [|intros [= <- _ _]; apply grows_refl].
  destruct (current_user db s) as [|user] eqn:Hcu; simpl;
    [intros [= <- _ _]; apply grows_refl|].
  intros [= <- _ _]; apply grows_same_users; [reflexivity|].
  intros H; apply consistent_add_comment; simpl; [assumption| |].
  - destruct (find_requested_post (BlogPost_query_all db) index)
      as [post|] eqn:Hpost; simpl; [right | now left].
    apply find_requested_post_some in Hpost.
    apply key_in_row, Hpost.
  - apply key_in_row; now apply (current_user_in db s).
Qed.

Lemma new_post_body_grows sub today db s db' s' resp :
  new_post_body sub today db s = Ok (db', s', resp) -> grows db db'.
Proof.
  unfold new_post_body.
  destruct (validate_on_submit CreatePostForm_validate sub) as [form|];
    [|intros [= <- _ _]; apply grows_refl].
  unfold commit_add_post.
  destruct (existsb _ (blog_posts db)); simpl; [discriminate|].
  intros [= <- _ _]; apply grows_same_users; [reflexivity|].
  intros H; apply consistent_add_post; [assumption|].
  apply autoincrement_fresh.
Qed.

Lemma edit_post_body_grows post_id sub db s db' s' resp :
  edit_post_body post_id sub db s = Ok (db', s', resp) -> grows db db'.
Proof.
  unfold edit_post_body.
  unfold BlogPost_query_get_executed.
  destruct (BlogPost_query_get db post_id) as [post|]; simpl;
    [|destruct (sqlite_integer post_id); simpl; discriminate].
  destruct (validate_on_submit CreatePostForm_validate sub) as [form|];
    [|intros [= <- _ _]; apply grows_refl].
  unfold commit_update_post.
  destruct (existsb _ (blog_posts db)); simpl; [discriminate|].
  intros [= <- _ _]; apply grows_same_users; [reflexivity|].
  apply consistent_update_posts.
  intros p; now destruct (BlogPost.id p =? BlogPost.id post).
Qed.

Lemma delete_body_grows post_id db s db' s' resp :
  delete_body post_id db s = Ok (db', s', resp) -> grows db db'.
Proof.
  unfold delete_body.
  unfold BlogPost_query_get_executed.
  destruct (BlogPost_query_get db post_id) as [post|]; simpl;
    [|destruct (sqlite_integer post_id); simpl; discriminate].
  intros [= <- _ _]; apply grows_same_users; [reflexivity|].
  apply consistent_delete_post.
Qed.

Lemma contact_grows sub smtp_ok db s db' s' resp :
  contact sub smtp_ok db s = Ok (db', s', resp) -> grows db db'.
Proof.
  unfold contact.
  destruct sub as [|data]; [intros [= <- _ _]; apply grows_refl|].
  destruct (form_get data "nam"), (form_get data "emai"),
    (form_get data "phon"), (form_get data "messag"), smtp_ok;
    try discriminate; intros [= <- _ _]; apply grows_refl.
Qed.

Lemma admin_only_grows (function_x : Handler) db s db' s' resp :
  (forall db' s' resp, function_x db s = Ok (db', s', resp) -> grows db db') ->
  admin_only function_x db s = Ok (db', s', resp) -> grows db db'.
Proof.
  intros Hbody H; apply admin_only_cases in H.
  destruct H as [[= <- _ _] | H]; [apply grows_refl | eauto].
Qed.

Lemma dispatch_grows r db s db' s' resp :
  dispatch r db s = Ok (db', s', resp) -> grows db db'.
Proof.
  destruct r; simpl.
  - intros [= <- _ _]; apply grows_refl.
  - apply register_grows.
  - apply login_grows.
  - intros [= <- _ _]; apply grows_refl.
  - apply show_post_grows.
  - apply admin_only_grows; intros ? ? ?; apply new_post_body_grows.
  - apply admin_only_grows; intros ? ? ?; apply edit_post_body_grows.
  - apply admin_only_grows; intros ? ? ?; apply delete_body_grows.
  - intros [= <- _ _]; apply grows_refl.
  - apply contact_grows.
Qed.

Lemma step_grows db sr : grows db (step db sr).
Proof.
  unfold step.
  destruct (dispatch (snd sr) db (fst sr)) as [[[db' s'] resp]|] eqn:E;
    [now apply dispatch_grows in E | apply grows_refl].
Qed.

Lemma run_grows requests : forall db, grows db (run db requests).
Proof.
  induction requests as [|sr requests IH]; intros db; simpl.
  - apply grows_refl.
  - apply (grows_trans _ (step db sr)); [apply step_grows | apply IH].
Qed.

(** C3: after every sequence of requests from the empty database, every
    comment references exactly one existing user, and its post reference
    is either null or exactly one existing post. *)
Theorem comments_resolved_after_run :
  forall requests : list (Session * Request),
    comments_resolved (run empty_db requests).
Proof.
  intros requests; apply consistent_resolved.
  apply (run_grows requests empty_db), consistent_empty.
Qed.

(** C5: once a registration POST with a new email [e] and password [p] has
    created a user, then after any further requests a login POST with
    [(e, p)] sets the session identity to that user's key and redirects to
    the post list, provided the stored hash verifies against [p]; and a
    login POST with [e] and a password that does not verify leaves the
    session identity as it was. *)
Theorem login_after_register :
  forall (db : DB) (s : Session) (form : RegisterForm.t) (salt : string)
         (requests : list (Session * Request)),
    RegisterForm_validate form = true ->
    (forall user, In user (users db) ->
                  User.email user <> RegisterForm.email form) ->
    check_password_hash
      (generate_password_hash (RegisterForm.password form) salt)
      (RegisterForm.password form) = true ->
    exists db1 new_user,
      register (POST form) salt db s
      = Ok (db1, login_user new_user s, Redirect url_get_all_posts)
      /\ User.email new_user = RegisterForm.email form
      /\ User.password new_user
         = generate_password_hash (RegisterForm.password form) salt
      /\ forall (s2 : Session) (attempt : LoginForm.t),
           LoginForm_validate attempt = true ->
           LoginForm.email attempt = RegisterForm.email form ->
           let db2 := run db1 requests in
           (LoginForm.password attempt = RegisterForm.password form ->
            login (POST attempt) db2 s2
            = Ok (db2, mkSession (Some (User.id new_user)) (flashes s2),
                  Redirect url_get_all_posts))
           /\ (check_password_hash (User.password new_user)
                                   (LoginForm.password attempt) = false ->
               exists s2',
                 login (POST attempt) db2 s2 = Ok (db2, s2', Redirect url_login)
                 /\ user_id s2' = user_id s2).
Proof.
  intros db s form salt requests Hv Hnew Hhash.
  assert (Hfind : User_query_filter_by_email_first db (RegisterForm.email form)
                  = None).
  { apply find_none_iff; intros u Hu; apply String.eqb_neq; auto. }
  assert (Hexists : existsb
            (fun u => (User.email u =? RegisterForm.email form)%string)
            (users db) = false).
  { apply existsb_false_iff; intros u Hu; apply String.eqb_neq; auto. }
  unfold register; simpl; rewrite Hv, Hfind.
  unfold commit_add_user; rewrite Hexists; simpl.
  set (new_user := User.mk _ _ _ _).
  set (db1 := mkDB _ _ _).
  exists db1, new_user.
  split; [reflexivity | split; [reflexivity | split; [reflexivity|]]].
  intros s2 attempt Hva Hemail.
  set (db2 := run db1 requests).
  assert (Hfound : User_query_filter_by_email_first db2
                     (LoginForm.email attempt) = Some new_user).
  { destruct (run_grows requests db1) as [(more & Hmore) _].
    unfold User_query_filter_by_email_first in *; fold db2 in Hmore.
    rewrite Hmore, Hemail; unfold db1; simpl users; rewrite <- app_assoc.
    rewrite (find_app_missing _ _ _ Hfind); simpl.
    now rewrite String.eqb_refl. }
  split.
  - intros Hpw.
    unfold login; simpl; rewrite Hva, Hfound, Hpw; simpl User.password.
    now rewrite Hhash.
  - intros Hbad.
    exists (flash "Password incorrect, please try again" s2).
    split; [|reflexivity].
    unfold login; simpl; rewrite Hva, Hfound.
    now rewrite Hbad.
Qed.

End Properties.

(** * The date format *)

Example strftime_B_d_Y_example :
  strftime_B_d_Y today_example = "November 03, 2026".
Proof. reflexivity. Qed.

Lemma zero_padded_length (d : nat) :
  d < 100 -> String.length (zero_padded d) = 2.
Proof.
  intros Hd.
  assert (H : forallb (fun k => String.length (zero_padded k) =? 2)
                      (seq 0 100) = true) by (vm_compute; reflexivity).
  rewrite forallb_forall in H.
  apply Nat.eqb_eq, H, in_seq; lia.
Qed.

Lemma decimal_year_length (y : nat) :
  1000 <= y < 10 * 1000 -> String.length (decimal y) = 4.
Proof.
  intros Hy.
  assert (H : forallb (fun k => String.length (decimal k) =? 4)
                      (seq 1000 (9 * 1000)) = true)
    by (vm_compute; reflexivity).
  rewrite forallb_forall in H.
  apply Nat.eqb_eq, H, in_seq; lia.
Qed.

Lemma strftime_B_d_Y_parts (today : datetime) :
  strftime_B_d_Y today
  = (month_name (month today) ++ " " ++ zero_padded (day today) ++ ", "
     ++ decimal (year today))%string.
Proof. reflexivity. Qed.

(** * Concrete runs *)

(** C2, as stated, fails: a logged-in user's comment submitted for path id
    7, which names no post, is stored with a null post reference. *)
Lemma show_post_comment_no_post :
  show_post (forms := forms_data_required) 7 (POST comment_form_hi)
            db_one_post (session_of 2)
  = Ok (mkDB [alice; bob] [post_T] [Comment.mk 1 (Some 2) None "hi"],
        session_of 2, Render (post_html None []))
  /\ Comment.post_id (Comment.mk 1 (Some 2) None "hi") <> Some 7.
Proof.
  split; [reflexivity | discriminate].
Qed.

Lemma show_post_comment_witness :
  CommentForm_validate (Forms := forms_data_required) comment_form_hi = true
  /\ current_user db_one_post (session_of 2) = LoggedIn bob
  /\ (exists p, In p (blog_posts db_one_post) /\ BlogPost.id p = 1)
  /\ exists new_comment post,
       show_post (forms := forms_data_required) 1 (POST comment_form_hi)
                 db_one_post (session_of 2)
       = Ok (mkDB (users db_one_post) (blog_posts db_one_post)
                  (comments db_one_post ++ [new_comment]),
             session_of 2, Render (post_html (Some post) (comments db_one_post)))
       /\ In post (blog_posts db_one_post)
       /\ BlogPost.id post = 1
       /\ Comment.author_id new_comment = Some (User.id bob)
       /\ Comment.post_id new_comment = Some 1
       /\ Comment.text new_comment = CommentForm.comment comment_form_hi.
Proof.
  assert (Hpost : exists p, In p (blog_posts db_one_post) /\ BlogPost.id p = 1).
  { exists post_T; split; [now left | reflexivity]. }
  split; [reflexivity | split; [reflexivity | split; [exact Hpost|]]].
  exact (proj1 (show_post_comment (forms := forms_data_required)
                  db_one_post (session_of 2) 1 comment_form_hi eq_refl)
               bob eq_refl Hpost).
Defined.

(** C3, as stated, fails: after Alice registers and comments on path id 7,
    the stored comment references no post. *)
Lemma referential_integrity_broken :
  ~ referential_integrity
      (run (forms := forms_data_required) (hasher := hasher_plain)
           empty_db requests_comment_no_post).
Proof.
  intros H.
  destruct (H (Comment.mk 1 (Some 1) None "hi") (or_introl eq_refl))
    as [(post & (_ & Hkey) & _) _].
  discriminate Hkey.
Qed.

Lemma register_duplicate_email_witness :
  RegisterForm_validate (Forms := forms_data_required) alice_form = true
  /\ In alice (users db_users)
  /\ User.email alice = RegisterForm.email alice_form
  /\ register (forms := forms_data_required) (hasher := hasher_plain)
              (POST alice_form) "salt" db_users anonymous_session
     = Ok (db_users,
           flash "You've already signed up with that email, log in instead!"
                 anonymous_session,
           Redirect url_login).
Proof.
  split; [reflexivity | split; [now left | split; [reflexivity|]]].
  apply (register_duplicate_email (forms := forms_data_required)
           (hasher := hasher_plain) db_users anonymous_session alice_form
           "salt" alice); [reflexivity | now left | reflexivity].
Defined.

Lemma login_unknown_email_witness :
  LoginForm_validate (Forms := forms_data_required) login_carol = true
  /\ (forall user, In user (users db_users) ->
                   User.email user <> LoginForm.email login_carol)
  /\ exists s',
       login (forms := forms_data_required) (hasher := hasher_plain)
             (POST login_carol) db_users anonymous_session
       = Ok (db_users, s', Redirect url_login)
       /\ user_id s' = user_id anonymous_session
       /\ flashes s'
          = flashes anonymous_session
            ++ ["That email does not exist, please try again"].
Proof.
  assert (Hnone : forall user, In user (users db_users) ->
                               User.email user <> LoginForm.email login_carol).
  { intros user [<- | [<- | []]]; discriminate. }
  split; [reflexivity | split; [exact Hnone|]].
  exact (login_unknown_email (forms := forms_data_required)
           (hasher := hasher_plain) db_users anonymous_session login_carol
           eq_refl Hnone).
Defined.

Lemma edit_delete_missing_post_raise_witness :
  is_admin db_one_post (session_of 1)
  /\ no_post db_one_post 9
  /\ (forall sub,
        edit_post (forms := forms_data_required) 9 sub db_one_post
                  (session_of 1)
        = Raise AttributeError)
  /\ delete 9 db_one_post (session_of 1) = Raise UnmappedInstanceError.
Proof.
  assert (Hadmin : is_admin db_one_post (session_of 1)).
  { exists alice; split; reflexivity. }
  assert (Hmissing : no_post db_one_post 9).
  { intros p [<- | []]; discriminate. }
  split; [exact Hadmin | split; [exact Hmissing|]].
  exact (edit_delete_missing_post_raise (forms := forms_data_required)
           db_one_post (session_of 1) 9 Hadmin Hmissing).
Defined.

Lemma login_after_register_witness :
  RegisterForm_validate (Forms := forms_data_required) alice_form = true
  /\ (forall user, In user (users empty_db) ->
                   User.email user <> RegisterForm.email alice_form)
  /\ check_password_hash (PasswordHasher := hasher_plain)
       (generate_password_hash (PasswordHasher := hasher_plain)
          (RegisterForm.password alice_form) "salt")
       (RegisterForm.password alice_form) = true
  /\ exists db1 new_user,
       register (forms := forms_data_required) (hasher := hasher_plain)
                (POST alice_form) "salt" empty_db anonymous_session
       = Ok (db1, login_user new_user anonymous_session,
             Redirect url_get_all_posts)
       /\ User.email new_user = RegisterForm.email alice_form
       /\ User.password new_user
          = generate_password_hash (PasswordHasher := hasher_plain)
              (RegisterForm.password alice_form) "salt"
       /\ forall (s2 : Session) (attempt : LoginForm.t),
            LoginForm_validate (Forms := forms_data_required) attempt = true ->
            LoginForm.email attempt = RegisterForm.email alice_form ->
            let db2 :=
              run (forms := forms_data_required) (hasher := hasher_plain)
                  db1 requests_after_register in
            (LoginForm.password attempt = RegisterForm.password alice_form ->
             login (forms := forms_data_required) (hasher := hasher_plain)
                   (POST attempt) db2 s2
             = Ok (db2, mkSession (Some (User.id new_user)) (flashes s2),
                   Redirect url_get_all_posts))
            /\ (check_password_hash (PasswordHasher := hasher_plain)
                  (User.password new_user) (LoginForm.password attempt)
                = false ->
                exists s2',
                  login (forms := forms_data_required)
                        (hasher := hasher_plain) (POST attempt) db2 s2
                  = Ok (db2, s2', Redirect url_login)
                  /\ user_id s2' = user_id s2).
Proof.
  assert (Hnew : forall user, In user (users empty_db) ->
                   User.email user <> RegisterForm.email alice_form).
  { intros user []. }
  split; [reflexivity | split; [exact Hnew | split; [reflexivity|]]].
  exact (login_after_register (forms := forms_data_required)
           (hasher := hasher_plain) empty_db anonymous_session alice_form
           "salt" requests_after_register eq_refl Hnew eq_refl).
Defined.

(** C6, as stated, fails: the administrator's edit of post 2 with the title
    of post 1 is refused by the unique constraint on titles; the request
    raises and nothing is changed. *)
Lemma edit_post_duplicate_title :
  is_admin db_two_posts (session_of 1)
  /\ CreatePostForm_validate (Forms := forms_data_required) form_T = true
  /\ BlogPost_query_get db_two_posts 2 = Some post_U
  /\ edit_post (forms := forms_data_required) 2 (POST form_T) db_two_posts
               (session_of 1)
     = Raise IntegrityError.
Proof.
  split; [exists alice; split; reflexivity|].
  repeat split.
Qed.

Lemma edit_post_frame_witness :
  is_admin db_two_posts (session_of 1)
  /\ CreatePostForm_validate (Forms := forms_data_required) form_V = true
  /\ BlogPost_query_get db_two_posts 2 = Some post_U
  /\ title_free db_two_posts (Some 2) (CreatePostForm.title form_V)
  /\ exists db',
       edit_post (forms := forms_data_required) 2 (POST form_V) db_two_posts
                 (session_of 1)
       = Ok (db', session_of 1, Redirect (url_show_post 2))
       /\ users db' = users db_two_posts
       /\ comments db' = comments db_two_posts
       /\ BlogPost_query_get db' 2
          = Some (BlogPost.mk 2 (Some 1) "V" "sub2" "November 03, 2026"
                              "text2" "http://img2")
       /\ BlogPost_query_get db' 1 = Some post_T.
Proof.
  assert (Hadmin : is_admin db_two_posts (session_of 1)).
  { exists alice; split; reflexivity. }
  assert (Hfree : title_free db_two_posts (Some 2)
                             (CreatePostForm.title form_V)).
  { intros p [<- | [<- | []]] _; discriminate. }
  split; [exact Hadmin | split; [reflexivity | split; [reflexivity|]]].
  split; [exact Hfree|].
  destruct (edit_post_frame (forms := forms_data_required) db_two_posts
              (session_of 1) 2 form_V post_U Hadmin eq_refl eq_refl Hfree)
    as (db' & Hrun & Hu & Hc & _ & Hget & _ & Hother).
  exists db'; split; [exact Hrun|].
  split; [exact Hu | split; [exact Hc | split; [exact Hget|]]].
  rewrite (Hother 1); [reflexivity | discriminate].
Defined.

Lemma post_round_trip_witness :
  is_admin db_one_post (session_of 1)
  /\ CreatePostForm_validate (Forms := forms_data_required) form_V = true
  /\ title_free db_one_post None (CreatePostForm.title form_V)
  /\ exists db1 new_blog,
       new_post (forms := forms_data_required) (POST form_V) today_example
                db_one_post (session_of 1)
       = Ok (db1, session_of 1, Redirect url_get_all_posts)
       /\ BlogPost_query_get db1 (BlogPost.id new_blog) = Some new_blog
       /\ BlogPost.title new_blog = CreatePostForm.title form_V
       /\ BlogPost.subtitle new_blog = CreatePostForm.subtitle form_V
       /\ BlogPost.body new_blog = CreatePostForm.body form_V
       /\ BlogPost.img_url new_blog = CreatePostForm.img_url form_V
       /\ BlogPost.date new_blog = strftime_B_d_Y today_example
       /\ BlogPost.author_id new_blog = Some 1
       /\ exists db2,
            delete (BlogPost.id new_blog) db1 (session_of 1)
            = Ok (db2, session_of 1, Redirect url_get_all_posts)
            /\ BlogPost_query_get db2 (BlogPost.id new_blog) = None
            /\ get_all_posts db2 (session_of 1)
               = Ok (db2, session_of 1, Render (index_html (blog_posts db2)))
            /\ no_post db2 (BlogPost.id new_blog).
Proof.
  assert (Hadmin : is_admin db_one_post (session_of 1)).
  { exists alice; split; reflexivity. }
  assert (Hfree : title_free db_one_post None (CreatePostForm.title form_V)).
  { intros p [<- | []] _; discriminate. }
  split; [exact Hadmin | split; [reflexivity | split; [exact Hfree|]]].
  exact (post_round_trip (forms := forms_data_required) db_one_post
           (session_of 1) form_V today_example Hadmin eq_refl Hfree).
Defined.

(** C8, as stated, fails: the administrator's new-post POST with a title
    that a post already carries is refused by the unique constraint on
    titles; the request raises, no post is created and there is no
    redirect. *)
Lemma new_post_duplicate_title :
  is_admin db_one_post (session_of 1)
  /\ CreatePostForm_validate (Forms := forms_data_required) form_T = true
  /\ new_post (forms := forms_data_required) (POST form_T) today_example
              db_one_post (session_of 1)
     = Raise IntegrityError.
Proof.
  split; [exists alice; split; reflexivity|].
  split; reflexivity.
Qed.

Lemma new_post_creates_witness :
  current_user db_one_post (session_of 1) = LoggedIn alice
  /\ User.id alice = 1
  /\ CreatePostForm_validate (Forms := forms_data_required) form_V = true
  /\ title_free db_one_post None (CreatePostForm.title form_V)
  /\ new_post (forms := forms_data_required) (POST form_V) today_example
              db_one_post (session_of 1)
     = Ok (mkDB [alice; bob]
                [post_T;
                 BlogPost.mk 2 (Some 1) "V" "sub2" "November 03, 2026"
                             "text2" "http://img2"]
                [],
           session_of 1, Redirect url_get_all_posts).
Proof.
  assert (Hfree : title_free db_one_post None (CreatePostForm.title form_V)).
  { intros p [<- | []] _; discriminate. }
  split; [reflexivity | split; [reflexivity | split; [reflexivity|]]].
  split; [exact Hfree|].
  exact (new_post_creates (forms := forms_data_required) db_one_post
           (session_of 1) form_V today_example alice eq_refl eq_refl eq_refl
           Hfree).
Defined.

(** * Further properties of the handlers *)

Lemma existsb_title_free_new (db : DB) (title : string) :
  existsb (fun p => (BlogPost.title p =? title)%string) (blog_posts db) = false ->
  title_free db None title.
Proof.
  intros H p Hp _.
  apply String.eqb_neq.
  now apply (proj1 (existsb_false_iff _ _) H).
Qed.

Lemma existsb_title_free_other (db : DB) (post_id : nat) (title : string) :
  existsb (fun p => negb (BlogPost.id p =? post_id)
                    && (BlogPost.title p =? title)%string) (blog_posts db)
  = false ->
  title_free db (Some post_id) title.
Proof.
  intros H p Hp Hid.
  pose proof (proj1 (existsb_false_iff _ _) H p Hp) as E; cbv beta in E.
  destruct (BlogPost.id p =? post_id) eqn:Ep.
  - apply Nat.eqb_eq in Ep; congruence.
  - apply String.eqb_neq; exact E.
Qed.

Lemma email_find_existsb (db : DB) (email : string) :
  User_query_filter_by_email_first db email = None ->
  existsb (fun u => (User.email u =? email)%string) (users db) = false.
Proof.
  unfold User_query_filter_by_email_first; intros H.
  apply existsb_false_iff, find_none_iff, H.
Qed.

Section Coverage.

Context {forms : Forms} {hasher : PasswordHasher}.

Lemma admin_only_inv (function_x : Handler) (db : DB) (s : Session)
    (o : Outcome) :
  admin_only function_x db s = Ok o ->
  o = (db, s, Abort 403) \/ (is_admin db s /\ function_x db s = Ok o).
Proof.
  unfold admin_only, is_admin.
  destruct (current_user db s) as [|user]; simpl; [discriminate|].
  destruct (User.id user =? 1) eqn:E; simpl.
  - right; split; [|assumption].
    exists user; split; [reflexivity | now apply Nat.eqb_eq].
  - intros [= <-]; now left.
Qed.

Lemma register_transition sub salt db s db' s' resp :
  register sub salt db s = Ok (db', s', resp) -> transition db s db'.
Proof.
  unfold register.
  destruct (validate_on_submit RegisterForm_validate sub) as [form|];
    [|intros [= <- _ _]; constructor].
  destruct (User_query_filter_by_email_first db (RegisterForm.email form))
    eqn:Hfind; [intros [= <- _ _]; constructor|].
  unfold commit_add_user; rewrite (email_find_existsb _ _ Hfind); simpl.
  intros [= <- _ _]; apply user_added.
  intros u Hu; apply String.eqb_neq.
  now apply (find_none _ _ Hfind).
Qed.

Lemma login_transition sub db s db' s' resp :
  login sub db s = Ok (db', s', resp) -> db' = db.
Proof.
  unfold login.
  destruct (validate_on_submit LoginForm_validate sub) as [form|];
    [|now intros [= <- _ _]].
  destruct (User_query_filter_by_email_first db (LoginForm.email form))
    as [user|]; [|now intros [= <- _ _]].
  destruct (check_password_hash _ _); now intros [= <- _ _].
Qed.

Lemma show_post_transition index sub db s db' s' resp :
  show_post index sub db s = Ok (db', s', resp) -> transition db s db'.
Proof.
  unfold show_post.
  destruct (validate_on_submit CommentForm_validate sub) as [form|];
    [|intros [= <- _ _]; constructor].
  destruct (current_user db s) as [|user] eqn:Hcu; simpl;
    [intros [= <- _ _]; constructor|].
  intros [= <- _ _].
  apply (comment_added db s user
           (find_requested_post (BlogPost_query_all db) index)); [assumption|].
  intros p Hp; now apply find_requested_post_some in Hp.
Qed.

Lemma new_post_transition sub today db s db' s' resp :
  new_post sub today db s = Ok (db', s', resp) -> transition db s db'.
Proof.
  unfold new_post; intros H; apply admin_only_inv in H.
  destruct H as [[= <- _ _] | [Hadmin H]]; [constructor|].
  revert H; unfold new_post_body.
  destruct (validate_on_submit CreatePostForm_validate sub) as [form|];
    [|intros [= <- _ _]; constructor].
  unfold commit_add_post.
  destruct (existsb _ (blog_posts db)) eqn:Hfree; simpl; [discriminate|].
  intros [= <- _ _].
  destruct Hadmin as (user & Hcu & Hid); rewrite Hcu; simpl.
  rewrite Hid; apply post_added.
  - exists user; now split.
  - now apply existsb_title_free_new.
Qed.

Lemma edit_post_transition post_id sub db s db' s' resp :
  edit_post post_id sub db s = Ok (db', s', resp) -> transition db s db'.
Proof.
  unfold edit_post; intros H; apply admin_only_inv in H.
  destruct H as [[= <- _ _] | [Hadmin H]]; [constructor|].
  revert H; unfold edit_post_body.
  unfold BlogPost_query_get_executed.
  destruct (BlogPost_query_get db post_id) as [post|]; simpl;
    [|destruct (sqlite_integer post_id); simpl; discriminate].
  destruct (validate_on_submit CreatePostForm_validate sub) as [form|];
    [|intros [= <- _ _]; constructor].
  unfold commit_update_post.
  destruct (existsb _ (blog_posts db)) eqn:Hfree; simpl; [discriminate|].
  intros [= <- _ _]; apply post_updated; [assumption|].
  now apply existsb_title_free_other.
Qed.

Lemma delete_transition post_id db s db' s' resp :
  delete post_id db s = Ok (db', s', resp) -> transition db s db'.
Proof.
  unfold delete; intros H; apply admin_only_inv in H.
  destruct H as [[= <- _ _] | [Hadmin H]]; [constructor|].
  revert H; unfold delete_body.
  unfold BlogPost_query_get_executed.
  destruct (BlogPost_query_get db post_id) as [post|]; simpl;
    [|destruct (sqlite_integer post_id); simpl; discriminate].
  intros [= <- _ _]; now apply post_deleted.
Qed.

Lemma contact_transition sub smtp_ok db s db' s' resp :
  contact sub smtp_ok db s = Ok (db', s', resp) -> db' = db /\ s' = s.
Proof.
  unfold contact.
  destruct sub as [|data]; [intros [= <- <- _]; now split|].
  destruct (form_get data "nam"), (form_get data "emai"),
    (form_get data "phon"), (form_get data "messag"), smtp_ok;
    try discriminate; intros [= <- <- _]; now split.
Qed.

Lemma dispatch_transition r db s db' s' resp :
  dispatch r db s = Ok (db', s', resp) -> transition db s db'.
Proof.
  destruct r; simpl.
  - intros [= <- _ _]; constructor.
  - apply register_transition.
  - intros H; apply login_transition in H; subst; constructor.
  - intros [= <- _ _]; constructor.
  - apply show_post_transition.
  - apply new_post_transition.
  - apply edit_post_transition.
  - apply delete_transition.
  - intros [= <- _ _]; constructor.
  - intros H; apply contact_transition in H; destruct H; subst; constructor.
Qed.

Lemma step_transition db sr : transition db (fst sr) (step db sr).
Proof.
  unfold step.
  destruct (dispatch (snd sr) db (fst sr)) as [[[db' s'] resp]|] eqn:E;
    [now apply dispatch_transition in E | constructor].
Qed.

End Coverage.

(** ** Keys and unique columns under the commits *)

Lemma keys_ascending_nil : keys_ascending [].
Proof.
  split; constructor.
Qed.

Lemma sorted_snoc (ids : list nat) (k : nat) :
  StronglySorted lt ids -> Forall (fun i => i < k) ids ->
  StronglySorted lt (ids ++ [k]).
Proof.
  induction 1 as [|a ids Hs IH Ha]; intros Hk; simpl.
  - constructor; constructor.
  - inversion Hk as [|? ? Hak Hk']; subst.
    constructor; [now apply IH|].
    apply Forall_app; split; [assumption | now constructor].
Qed.

Lemma keys_ascending_snoc (ids : list nat) :
  keys_ascending ids -> keys_ascending (ids ++ [autoincrement ids]).
Proof.
  intros [Hpos Hsorted]; split.
  - apply Forall_app; split; [assumption|].
    constructor; [unfold autoincrement; lia | constructor].
  - apply sorted_snoc; [assumption|].
    apply Forall_forall; intros i Hi.
    apply list_max_bound in Hi; unfold autoincrement; lia.
Qed.

Lemma keys_ascending_filter {A : Type} (key : A -> nat) (f : A -> bool)
    (rows : list A) :
  keys_ascending (map key rows) -> keys_ascending (map key (filter f rows)).
Proof.
  induction rows as [|a rows IH]; simpl; [auto|].
  intros [Hpos Hsorted].
  inversion Hpos as [|? ? Ha Hpos']; subst.
  inversion Hsorted as [|? ? Hs Hlt]; subst.
  destruct (IH (conj Hpos' Hs)) as [IHpos IHsorted].
  destruct (f a); simpl; [|now split].
  split; constructor; try assumption.
  apply Forall_forall; intros k Hk.
  rewrite Forall_forall in Hlt; apply Hlt.
  apply in_map_iff in Hk; destruct Hk as (x & <- & Hx).
  apply filter_In in Hx; apply in_map; tauto.
Qed.

Lemma keys_ascending_NoDup (ids : list nat) :
  keys_ascending ids -> NoDup ids.
Proof.
  intros [_ Hsorted].
  induction Hsorted as [|a ids Hs IH Ha]; constructor; [|assumption].
  intros Hin; rewrite Forall_forall in Ha.
  specialize (Ha a Hin); lia.
Qed.

Lemma NoDup_map_filter_column {A B : Type} (column : A -> B) (f : A -> bool)
    (rows : list A) :
  NoDup (map column rows) -> NoDup (map column (filter f rows)).
Proof.
  induction rows as [|a rows IH]; simpl; intros H; [constructor|].
  inversion H as [|? ? Ha Hl]; subst.
  destruct (f a); simpl; [constructor|]; auto.
  intros Hin; apply Ha.
  apply in_map_iff in Hin; destruct Hin as (x & Hx & Hin).
  apply filter_In in Hin; rewrite <- Hx; apply in_map; tauto.
Qed.

Lemma update_keeps_keys (post_id : nat) (title subtitle body img_url : string)
    (posts : list BlogPost.t) :
  map BlogPost.id
      (map (fun p => if BlogPost.id p =? post_id
                     then set_post_fields title subtitle body img_url p
                     else p) posts)
  = map BlogPost.id posts.
Proof.
  rewrite map_map; apply map_ext; intros p.
  now destruct (BlogPost.id p =? post_id).
Qed.

Lemma nullify_keeps_core (post_id : nat) (c : Comment.t) :
  comment_core (nullify_post post_id c) = comment_core c.
Proof.
  unfold nullify_post.
  destruct (Comment.post_id c) as [pid|]; [|reflexivity].
  now destruct (pid =? post_id).
Qed.

Lemma nullify_keeps_keys (post_id : nat) (comments : list Comment.t) :
  map Comment.id (map (nullify_post post_id) comments)
  = map Comment.id comments.
Proof.
  rewrite map_map; apply map_ext; intros c.
  exact (f_equal (fun t => fst (fst t)) (nullify_keeps_core post_id c)).
Qed.

Lemma update_keeps_titles_unique (post_id : nat)
    (title subtitle body img_url : string) (posts : list BlogPost.t) :
  NoDup (map BlogPost.id posts) ->
  NoDup (map BlogPost.title posts) ->
  (forall p, In p posts -> BlogPost.id p <> post_id ->
             BlogPost.title p <> title) ->
  NoDup (map BlogPost.title
             (map (fun p => if BlogPost.id p =? post_id
                            then set_post_fields title subtitle body img_url p
                            else p) posts)).
Proof.
  induction posts as [|a posts IH]; simpl; intros Hids Htitles Hfree;
    [constructor|].
  inversion Hids as [|? ? Hida Hids']; subst.
  inversion Htitles as [|? ? Hta Htitles']; subst.
  assert (IH' := IH Hids' Htitles'
                    (fun p Hp => Hfree p (or_intror Hp))).
  constructor; [|assumption].
  intros Hin; apply in_map_iff in Hin; destruct Hin as (q & Hq & Hin).
  apply in_map_iff in Hin; destruct Hin as (p & <- & Hp).
  destruct (BlogPost.id a =? post_id) eqn:Ea;
    destruct (BlogPost.id p =? post_id) eqn:Ep; simpl in Hq.
  - apply Nat.eqb_eq in Ea, Ep.
    apply Hida; rewrite Ea, <- Ep; now apply in_map.
  - apply Nat.eqb_neq in Ep.
    now apply (Hfree p (or_intror Hp) Ep).
  - apply Nat.eqb_neq in Ea.
    apply (Hfree a (or_introl eq_refl) Ea); now symmetry.
  - apply Hta; rewrite <- Hq; now apply in_map.
Qed.

Lemma transition_well_keyed (db db' : DB) (s : Session) :
  transition db s db' -> well_keyed db -> well_keyed db'.
Proof.
  intros Ht (Hu & Hp & Hc).
  destruct Ht as [ | email password name Hnew
                   | title subtitle date body img_url Hadmin Hfree
                   | user post text Hcu Hpost
                   | post_id title subtitle body img_url Hadmin Hfree
                   | post_id Hadmin ];
    unfold well_keyed; simpl;
    rewrite ?map_app, ?update_keeps_keys, ?nullify_keeps_keys; simpl.
  - auto.
  - split; [now apply keys_ascending_snoc | now split].
  - split; [assumption | split; [now apply keys_ascending_snoc | assumption]].
  - split; [assumption | split; [assumption | now apply keys_ascending_snoc]].
  - auto.
  - split; [assumption | split; [now apply keys_ascending_filter | assumption]].
Qed.

Lemma transition_unique_columns (db db' : DB) (s : Session) :
  transition db s db' -> well_keyed db -> unique_columns db ->
  unique_columns db'.
Proof.
  intros Ht (_ & Hkeys & _) (Hemails & Htitles).
  destruct Ht as [ | email password name Hnew
                   | title subtitle date body img_url Hadmin Hfree
                   | user post text Hcu Hpost
                   | post_id title subtitle body img_url Hadmin Hfree
                   | post_id Hadmin ];
    split; simpl; try assumption.
  - rewrite map_app; apply NoDup_snoc; [assumption|].
    intros Hin; apply in_map_iff in Hin; destruct Hin as (u & Hu & Hin).
    now apply (Hnew u).
  - rewrite map_app; apply NoDup_snoc; [assumption|].
    intros Hin; apply in_map_iff in Hin; destruct Hin as (p & Hp & Hin).
    apply (Hfree p Hin); [discriminate | assumption].
  - apply update_keeps_titles_unique;
      [now apply keys_ascending_NoDup | assumption|].
    intros p Hp Hid; apply (Hfree p Hp); congruence.
  - now apply NoDup_map_filter_column.
Qed.

Lemma transition_users (db db' : DB) (s : Session) :
  transition db s db' ->
  users db' = users db
  \/ exists email password name,
       users db'
       = users db ++ [User.mk (autoincrement (map User.id (users db)))
                              email password name].
Proof.
  intros Ht; destruct Ht; simpl; eauto.
Qed.

Lemma transition_posts (db db' : DB) (s : Session) :
  transition db s db' -> ~ is_admin db s -> blog_posts db' = blog_posts db.
Proof.
  intros Ht Hnot; destruct Ht; simpl; try reflexivity; contradiction.
Qed.

Lemma transition_comments (db db' : DB) (s : Session) :
  transition db s db' ->
  exists more,
    map comment_core (comments db') = map comment_core (comments db) ++ more.
Proof.
  intros Ht; destruct Ht; simpl;
    try (exists []; now rewrite app_nil_r).
  - rewrite map_app; eauto.
  - exists []; rewrite app_nil_r, map_map.
    apply map_ext, nullify_keeps_core.
Qed.

Section Runs.

Context {forms : Forms} {hasher : PasswordHasher}.

Lemma run_snoc db requests sr :
  run db (requests ++ [sr]) = step (run db requests) sr.
Proof.
  unfold run; now rewrite fold_left_app.
Qed.

Lemma run_keeps_keys requests :
  forall db, well_keyed db /\ unique_columns db ->
             well_keyed (run db requests)
             /\ unique_columns (run db requests).
Proof.
  induction requests as [|sr requests IH]; intros db [Hk Hu]; simpl;
    [now split|].
  apply IH; pose proof (step_transition db sr) as Ht; split.
  - exact (transition_well_keyed _ _ _ Ht Hk).
  - exact (transition_unique_columns _ _ _ Ht Hk Hu).
Qed.

Lemma empty_db_keyed : well_keyed empty_db /\ unique_columns empty_db.
Proof.
  repeat split; constructor.
Qed.

(** X6: after every sequence of requests from the empty database the keys
    of each table start at 1 or above and strictly increase along the
    table, so rows are listed in the order of their creation and no key
    occurs twice. *)
Theorem keys_ascending_after_run :
  forall requests : list (Session * Request),
    let db := run empty_db requests in
    well_keyed db
    /\ NoDup (map User.id (users db))
    /\ NoDup (map BlogPost.id (blog_posts db))
    /\ NoDup (map Comment.id (comments db)).
Proof.
  intros requests db.
  destruct (run_keeps_keys requests empty_db empty_db_keyed)
    as [(Hu & Hp & Hc) _].
  split; [exact (conj Hu (conj Hp Hc))|].
  split; [|split]; now apply keys_ascending_NoDup.
Qed.

(** X7: after every sequence of requests from the empty database no two
    users share an email and no two posts share a title. *)
Theorem unique_columns_after_run :
  forall requests : list (Session * Request),
    unique_columns (run empty_db requests).
Proof.
  intros requests.
  apply (run_keeps_keys requests empty_db empty_db_keyed).
Qed.

(** X8: a request sent by anyone but the administrator leaves the posts
    table as it is, whatever the request. *)
Theorem only_admin_changes_posts :
  forall (db : DB) (s : Session) (r : Request),
    ~ is_admin db s ->
    blog_posts (step db (s, r)) = blog_posts db.
Proof.
  intros db s r Hnot.
  exact (transition_posts _ _ _ (step_transition db (s, r)) Hnot).
Qed.

(** X9: no sequence of requests removes or rewrites a user: the users
    table after the run is the table before it followed by the users
    registered since. *)
Theorem users_append_only :
  forall (db : DB) (requests : list (Session * Request)),
    exists more, users (run db requests) = users db ++ more.
Proof.
  intros db requests; revert db.
  induction requests as [|sr requests IH]; intros db; simpl.
  - exists []; now rewrite app_nil_r.
  - destruct (IH (step db sr)) as (more & ->).
    destruct (transition_users _ _ _ (step_transition db sr))
      as [-> | (email & password & name & ->)]; [eauto|].
    rewrite <- app_assoc; eauto.
Qed.

(** X10: no sequence of requests removes a comment or changes its key,
    author or text: apart from the post references, the comments table
    after the run is the table before it followed by the comments added
    since. *)
Theorem comments_kept :
  forall (db : DB) (requests : list (Session * Request)),
    exists more,
      map comment_core (comments (run db requests))
      = map comment_core (comments db) ++ more.
Proof.
  intros db requests; revert db.
  induction requests as [|sr requests IH]; intros db; simpl.
  - exists []; now rewrite app_nil_r.
  - destruct (IH (step db sr)) as (more & ->).
    destruct (transition_comments _ _ _ (step_transition db sr))
      as (more' & ->).
    rewrite <- app_assoc; eauto.
Qed.

End Runs.

Lemma find_new_key {A : Type} (key : A -> nat) (rows : list A) (row : A) :
  key row = autoincrement (map key rows) ->
  find (fun x => key x =? key row) (rows ++ [row]) = Some row.
Proof.
  intros Hkey.
  rewrite find_app_missing; [simpl; now rewrite Nat.eqb_refl|].
  apply find_none_iff; intros x Hx; apply Nat.eqb_neq; intros E.
  apply (autoincrement_fresh (map key rows)).
  rewrite <- Hkey, <- E; now apply in_map.
Qed.

Lemma autoincrement_after_first (ids : list nat) :
  keys_ascending ids -> ids <> [] -> 2 <= autoincrement ids.
Proof.
  intros [Hpos _] Hne; destruct ids as [|k ids]; [contradiction|].
  inversion Hpos; subst; unfold autoincrement; simpl; lia.
Qed.

Section Accounts.

Context {forms : Forms} {hasher : PasswordHasher}.

Lemma register_new_user (db : DB) (s : Session) (form : RegisterForm.t)
    (salt : string) :
  RegisterForm_validate form = true ->
  (forall u, In u (users db) -> User.email u <> RegisterForm.email form) ->
  let new_user :=
    User.mk (autoincrement (map User.id (users db)))
            (RegisterForm.email form)
            (generate_password_hash (RegisterForm.password form) salt)
            (RegisterForm.name form) in
  let db1 := mkDB (users db ++ [new_user]) (blog_posts db) (comments db) in
  register (POST form) salt db s
  = Ok (db1, login_user new_user s, Redirect url_get_all_posts)
  /\ current_user db1 (login_user new_user s) = LoggedIn new_user.
Proof.
  intros Hv Hnew new_user db1; split.
  - assert (Hfind : User_query_filter_by_email_first db
                      (RegisterForm.email form) = None).
    { apply find_none_iff; intros u Hu; apply String.eqb_neq; auto. }
    unfold register; simpl; rewrite Hv, Hfind.
    unfold commit_add_user; now rewrite (email_find_existsb _ _ Hfind).
  - unfold current_user, load_user, User_query_get; simpl.
    change (autoincrement (map User.id (users db))) with (User.id new_user).
    now rewrite (find_new_key User.id (users db) new_user eq_refl).
Qed.

Lemma register_sequential sub salt db s :
  register_interleaved sub salt db db s = register sub salt db s.
Proof.
  reflexivity.
Qed.

(** X2: the lookup by email before the insert is no guarantee when other
    requests commit in between: [register], its lookup run on the database
    [db_seen] and its insert committed against [db_now], raises exactly
    when the form is valid, no user of [db_seen] has the submitted email
    and a user of [db_now] has it, and then it raises [IntegrityError],
    the unique constraint on [users.email].  With nothing committed in
    between it is the handler itself. *)
Theorem register_integrity_race :
  forall (sub : Submission RegisterForm.t) (salt : string)
         (db_seen db_now : DB) (s : Session),
    register_interleaved sub salt db_seen db_seen s
    = register sub salt db_seen s
    /\ forall e,
         register_interleaved sub salt db_seen db_now s = Raise e
         <-> e = IntegrityError
             /\ exists form,
                  validate_on_submit RegisterForm_validate sub = Some form
                  /\ (forall u, In u (users db_seen) ->
                                User.email u <> RegisterForm.email form)
                  /\ exists u, In u (users db_now)
                               /\ User.email u = RegisterForm.email form.
Proof.
  intros sub salt db_seen db_now s; split; [reflexivity|].
  intros e; unfold register_interleaved.
  destruct (validate_on_submit RegisterForm_validate sub) as [form|].
  - destruct (User_query_filter_by_email_first db_seen
                (RegisterForm.email form)) as [found|] eqn:Hseen.
    + split; [discriminate|].
      intros (_ & form' & [= <-] & Hnew & _).
      unfold User_query_filter_by_email_first in Hseen.
      apply find_some in Hseen; destruct Hseen as [Hin Hmail].
      apply String.eqb_eq in Hmail; now apply Hnew in Hin.
    + unfold commit_add_user.
      destruct (existsb _ (users db_now)) eqn:Hnow; simpl.
      * split.
        -- intros [= <-]; split; [reflexivity|].
           exists form; split; [reflexivity|]; split.
           ++ intros u Hu; apply String.eqb_neq.
              exact (find_none _ _ Hseen u Hu).
           ++ apply existsb_exists in Hnow.
              destruct Hnow as (u & Hu & Hmail).
              apply String.eqb_eq in Hmail; now exists u.
        -- now intros [-> _].
      * split; [discriminate|].
        intros (_ & form' & [= <-] & _ & u & Hu & Hmail).
        pose proof (proj1 (existsb_false_iff _ _) Hnow u Hu) as E.
        cbv beta in E; rewrite Hmail, String.eqb_refl in E; discriminate.
  - split; [discriminate|].
    intros (_ & form' & Hform & _); discriminate.
Qed.

(** X3: a validated registration with an email no user has adds exactly
    one user, with the next key, the submitted email and name and the hash
    of the submitted password, and logs that user in: with the returned
    session the current identity on the new database is the new user. *)
Theorem register_logs_in :
  forall (db : DB) (s : Session) (form : RegisterForm.t) (salt : string),
    RegisterForm_validate form = true ->
    (forall u, In u (users db) -> User.email u <> RegisterForm.email form) ->
    exists new_user db1 s1,
      register (POST form) salt db s = Ok (db1, s1, Redirect url_get_all_posts)
      /\ db1 = mkDB (users db ++ [new_user]) (blog_posts db) (comments db)
      /\ new_user
         = User.mk (autoincrement (map User.id (users db)))
                   (RegisterForm.email form)
                   (generate_password_hash (RegisterForm.password form) salt)
                   (RegisterForm.name form)
      /\ flashes s1 = flashes s
      /\ current_user db1 s1 = LoggedIn new_user.
Proof.
  intros db s form salt Hv Hnew.
  destruct (register_new_user db s form salt Hv Hnew) as [Hrun Hcu].
  eexists; eexists; eexists; split; [exact Hrun|].
  repeat split; exact Hcu.
Qed.

(** X4: the first user to register is the administrator: on a database
    with no user, a validated registration creates the user with key 1,
    and the returned session passes the [admin_only] guard. *)
Theorem first_user_is_admin :
  forall (db : DB) (s : Session) (form : RegisterForm.t) (salt : string),
    users db = [] ->
    RegisterForm_validate form = true ->
    exists db1 s1,
      register (POST form) salt db s = Ok (db1, s1, Redirect url_get_all_posts)
      /\ user_id s1 = Some 1
      /\ is_admin db1 s1
      /\ forall function_x, admin_only function_x db1 s1 = function_x db1 s1.
Proof.
  intros db s form salt Hempty Hv.
  assert (Hnew : forall u, In u (users db) ->
                           User.email u <> RegisterForm.email form).
  { rewrite Hempty; intros u []. }
  destruct (register_new_user db s form salt Hv Hnew) as [Hrun Hcu].
  rewrite Hempty in Hrun, Hcu; simpl in Hrun, Hcu.
  eexists; eexists; split; [exact Hrun|].
  assert (Hadmin : is_admin
            (mkDB ([] ++ [User.mk (autoincrement []) (RegisterForm.email form)
                            (generate_password_hash
                               (RegisterForm.password form) salt)
                            (RegisterForm.name form)])
                  (blog_posts db) (comments db))
            (login_user (User.mk (autoincrement []) (RegisterForm.email form)
                            (generate_password_hash
                               (RegisterForm.password form) salt)
                            (RegisterForm.name form)) s)).
  { eexists; split; [exact Hcu | reflexivity]. }
  split; [reflexivity | split; [exact Hadmin|]].
  intros function_x; now apply admin_only_admin.
Qed.

(** X5: nobody who registers later is the administrator: in a database
    reached from the empty one that already has a user, a validated
    registration with a new email creates a user whose key is not 1, and
    with the returned session new-post, edit-post and delete-post answer
    403 and change nothing. *)
Theorem later_users_not_admin :
  forall (requests : list (Session * Request)) (s : Session)
         (form : RegisterForm.t) (salt : string),
    let db := run empty_db requests in
    users db <> [] ->
    RegisterForm_validate form = true ->
    (forall u, In u (users db) -> User.email u <> RegisterForm.email form) ->
    exists db1 s1,
      register (POST form) salt db s = Ok (db1, s1, Redirect url_get_all_posts)
      /\ ~ is_admin db1 s1
      /\ (forall sub today, new_post sub today db1 s1 = Ok (db1, s1, Abort 403))
      /\ (forall post_id sub,
            edit_post post_id sub db1 s1 = Ok (db1, s1, Abort 403))
      /\ (forall post_id, delete post_id db1 s1 = Ok (db1, s1, Abort 403)).
Proof.
  intros requests s form salt db Hne Hv Hnew.
  destruct (register_new_user db s form salt Hv Hnew) as [Hrun Hcu].
  destruct (run_keeps_keys requests empty_db empty_db_keyed)
    as [(Hkeys & _ & _) _]; fold db in Hkeys.
  assert (Hid : autoincrement (map User.id (users db)) <> 1).
  { assert (Hne' : map User.id (users db) <> []).
    { destruct (users db); [contradiction | discriminate]. }
    pose proof (autoincrement_after_first _ Hkeys Hne'); lia. }
  eexists; eexists; split; [exact Hrun|].
  split.
  - intros (user & Hcu' & Hone); rewrite Hcu in Hcu'.
    injection Hcu' as <-; contradiction.
  - repeat split; intros;
      now apply (admin_only_forbidden _ _ _ _ Hcu).
Qed.

(** X13: [login] changes the session identity only for a user of the
    database whose email is the submitted one and whose stored hash
    verifies against the submitted password; in every other case the
    identity stays as it was, and the database is never changed. *)
Theorem login_sound :
  forall (sub : Submission LoginForm.t) (db : DB) (s : Session)
         (db' : DB) (s' : Session) (resp : Response),
    login sub db s = Ok (db', s', resp) ->
    db' = db
    /\ ((resp = Redirect url_get_all_posts
         /\ exists form user,
              sub = POST form
              /\ In user (users db)
              /\ User.email user = LoginForm.email form
              /\ check_password_hash (User.password user)
                                     (LoginForm.password form) = true
              /\ s' = login_user user s)
        \/ (resp <> Redirect url_get_all_posts /\ user_id s' = user_id s)).
Proof.
  intros sub db s db' s' resp; unfold login.
  destruct sub as [|form]; simpl.
  { intros [= <- <- <-]; split; [reflexivity | right]; now split. }
  destruct (LoginForm_validate form);
    [|intros [= <- <- <-]; split; [reflexivity | right]; now split].
  destruct (User_query_filter_by_email_first db (LoginForm.email form))
    as [user|] eqn:Hfind;
    [|intros [= <- <- <-]; split; [reflexivity | right]; now split].
  destruct (check_password_hash _ _) eqn:Hcheck;
    intros [= <- <- <-]; split; try reflexivity;
    [left | right; now split].
  split; [reflexivity|]; exists form, user.
  apply find_some in Hfind; destruct Hfind as [Hin Hmail].
  apply String.eqb_eq in Hmail; now repeat split.
Qed.

End Accounts.

(** ** What each request may write *)

Lemma find_requested_post_is_get (posts : list BlogPost.t) (index : nat) :
  NoDup (map BlogPost.id posts) ->
  find_requested_post posts index
  = find (fun p => BlogPost.id p =? index) posts.
Proof.
  induction posts as [|a posts IH] using rev_ind; intros Hnd;
    [reflexivity|].
  rewrite find_requested_post_snoc.
  rewrite map_app in Hnd; simpl in Hnd.
  pose proof (NoDup_remove_1 _ _ _ Hnd) as Hnd'; rewrite app_nil_r in Hnd'.
  pose proof (NoDup_remove_2 _ _ _ Hnd) as Hnew; rewrite app_nil_r in Hnew.
  destruct (BlogPost.id a =? index) eqn:E.
  - apply Nat.eqb_eq in E.
    rewrite find_app_missing; [simpl; now rewrite E, Nat.eqb_refl|].
    apply find_none_iff; intros p Hp; apply Nat.eqb_neq; intros Hid.
    apply Hnew; rewrite E, <- Hid; now apply in_map.
  - rewrite (IH Hnd').
    destruct (find _ posts) as [p|] eqn:Hfind.
    + symmetry; now apply find_app_found.
    + rewrite find_app_missing by assumption; simpl; now rewrite E.
Qed.

Lemma find_requested_post_map (g : BlogPost.t -> BlogPost.t)
    (posts : list BlogPost.t) (index : nat) :
  (forall p, BlogPost.id (g p) = BlogPost.id p) ->
  find_requested_post (map g posts) index
  = option_map g (find_requested_post posts index).
Proof.
  intros Hkey; induction posts as [|a posts IH] using rev_ind;
    [reflexivity|].
  rewrite map_app; simpl.
  rewrite !find_requested_post_snoc, Hkey, IH.
  now destruct (BlogPost.id a =? index).
Qed.

Lemma find_requested_post_none (posts : list BlogPost.t) (index : nat) :
  (forall p, In p posts -> BlogPost.id p <> index) ->
  find_requested_post posts index = None.
Proof.
  intros Hnone.
  destruct (find_requested_post posts index) as [p|] eqn:E; [|reflexivity].
  apply find_requested_post_some in E; destruct E as [Hin Hid].
  now apply Hnone in Hin.
Qed.

Section Frames.

Context {forms : Forms} {hasher : PasswordHasher}.

Lemma register_frame sub salt db s db' s' resp :
  register sub salt db s = Ok (db', s', resp) ->
  blog_posts db' = blog_posts db /\ comments db' = comments db.
Proof.
  unfold register.
  destruct (validate_on_submit RegisterForm_validate sub) as [form|];
    [|intros [= <- _ _]; now split].
  destruct (User_query_filter_by_email_first db (RegisterForm.email form));
    [intros [= <- _ _]; now split|].
  unfold commit_add_user.
  destruct (existsb _ (users db)); simpl; [discriminate|].
  intros [= <- _ _]; now split.
Qed.

Lemma show_post_frame index sub db s db' s' resp :
  show_post index sub db s = Ok (db', s', resp) ->
  users db' = users db /\ blog_posts db' = blog_posts db
  /\ user_id s' = user_id s.
Proof.
  unfold show_post.
  destruct (validate_on_submit CommentForm_validate sub) as [form|];
    [|intros [= <- <- _]; now repeat split].
  destruct (is_authenticated (current_user db s)); simpl;
    intros [= <- <- _]; now repeat split.
Qed.

Lemma new_post_body_frame sub today db s db' s' resp :
  new_post_body sub today db s = Ok (db', s', resp) ->
  users db' = users db /\ comments db' = comments db /\ s' = s.
Proof.
  unfold new_post_body.
  destruct (validate_on_submit CreatePostForm_validate sub) as [form|];
    [|intros [= <- <- _]; now repeat split].
  unfold commit_add_post.
  destruct (existsb _ (blog_posts db)); simpl; [discriminate|].
  intros [= <- <- _]; now repeat split.
Qed.

Lemma edit_post_body_frame post_id sub db s db' s' resp :
  edit_post_body post_id sub db s = Ok (db', s', resp) ->
  users db' = users db /\ comments db' = comments db /\ s' = s.
Proof.
  unfold edit_post_body.
  unfold BlogPost_query_get_executed.
  destruct (BlogPost_query_get db post_id) as [post|]; simpl;
    [|destruct (sqlite_integer post_id); simpl; discriminate].
  destruct (validate_on_submit CreatePostForm_validate sub) as [form|];
    [|intros [= <- <- _]; now repeat split].
  unfold commit_update_post.
  destruct (existsb _ (blog_posts db)); simpl; [discriminate|].
  intros [= <- <- _]; now repeat split.
Qed.

Lemma delete_body_frame post_id db s db' s' resp :
  delete_body post_id db s = Ok (db', s', resp) ->
  users db' = users db /\ s' = s.
Proof.
  unfold delete_body.
  unfold BlogPost_query_get_executed.
  destruct (BlogPost_query_get db post_id) as [post|]; simpl;
    [|destruct (sqlite_integer post_id); simpl; discriminate].
  intros [= <- <- _]; now split.
Qed.

(** X11: each table is written only by its own requests: users by
    register; posts by new-post, edit-post and delete-post; comments by
    show-post and delete-post.  Every other request that returns leaves
    the table exactly as it was. *)
Theorem dispatch_frame :
  forall (r : Request) (db : DB) (s : Session)
         (db' : DB) (s' : Session) (resp : Response),
    dispatch r db s = Ok (db', s', resp) ->
    (writes_users r = false -> users db' = users db)
    /\ (writes_posts r = false -> blog_posts db' = blog_posts db)
    /\ (writes_comments r = false -> comments db' = comments db).
Proof.
  intros r db s db' s' resp H; destruct r; simpl in H.
  - injection H as <- _ _; now repeat split.
  - apply register_frame in H; destruct H as [-> ->].
    repeat split; simpl; intros; congruence.
  - apply login_transition in H; subst; now repeat split.
  - injection H as <- _ _; now repeat split.
  - apply show_post_frame in H; destruct H as (-> & -> & _).
    repeat split; simpl; intros; congruence.
  - apply admin_only_inv in H; destruct H as [[= <- _ _] | [_ H]];
      [now repeat split|].
    apply new_post_body_frame in H; destruct H as (-> & -> & _).
    repeat split; simpl; intros; congruence.
  - apply admin_only_inv in H; destruct H as [[= <- _ _] | [_ H]];
      [now repeat split|].
    apply edit_post_body_frame in H; destruct H as (-> & -> & _).
    repeat split; simpl; intros; congruence.
  - apply admin_only_inv in H; destruct H as [[= <- _ _] | [_ H]];
      [now repeat split|].
    apply delete_body_frame in H; destruct H as (-> & _).
    repeat split; simpl; intros; congruence.
  - injection H as <- _ _; now repeat split.
  - apply contact_transition in H; destruct H as [-> _]; now repeat split.
Qed.

(** X12: only register, login and logout change who is logged in: every
    other request that returns hands back a session with the identity it
    came with. *)
Theorem session_identity_frame :
  forall (r : Request) (db : DB) (s : Session)
         (db' : DB) (s' : Session) (resp : Response),
    dispatch r db s = Ok (db', s', resp) ->
    changes_identity r = false ->
    user_id s' = user_id s.
Proof.
  intros r db s db' s' resp H Hkind; destruct r; simpl in H;
    try discriminate Hkind.
  - now injection H as _ <- _.
  - now apply show_post_frame in H.
  - apply admin_only_inv in H; destruct H as [[= _ <- _] | [_ H]];
      [reflexivity|].
    apply new_post_body_frame in H; destruct H as (_ & _ & ->); reflexivity.
  - apply admin_only_inv in H; destruct H as [[= _ <- _] | [_ H]];
      [reflexivity|].
    apply edit_post_body_frame in H; destruct H as (_ & _ & ->); reflexivity.
  - apply admin_only_inv in H; destruct H as [[= _ <- _] | [_ H]];
      [reflexivity|].
    apply delete_body_frame in H; destruct H as (_ & ->); reflexivity.
  - now injection H as _ <- _.
  - apply contact_transition in H; destruct H as [_ ->]; reflexivity.
Qed.

End Frames.

(** ** Reading a post after writing it *)

Section Pages.

Context {forms : Forms} {hasher : PasswordHasher}.

Lemma show_post_renders (index : nat) (sub : Submission CommentForm.t)
    (db : DB) (s : Session) :
  validate_on_submit CommentForm_validate sub = None ->
  show_post index sub db s
  = Ok (db, s,
        Render (post_html (find_requested_post (blog_posts db) index)
                          (comments db))).
Proof.
  intros Hsub; unfold show_post; now rewrite Hsub.
Qed.

Lemma edit_post_commits (db : DB) (s : Session) (post_id : nat)
    (form : CreatePostForm.t) (post : BlogPost.t) :
  is_admin db s ->
  CreatePostForm_validate form = true ->
  BlogPost_query_get db post_id = Some post ->
  title_free db (Some post_id) (CreatePostForm.title form) ->
  edit_post post_id (POST form) db s
  = Ok (mkDB (users db)
             (map (fun p => if BlogPost.id p =? post_id
                            then set_post_fields (CreatePostForm.title form)
                                   (CreatePostForm.subtitle form)
                                   (CreatePostForm.body form)
                                   (CreatePostForm.img_url form) p
                            else p) (blog_posts db))
             (comments db),
        s, Redirect (url_show_post post_id)).
Proof.
  intros Hadmin Hv Hget Hfree.
  pose proof (find_key_eq _ _ _ _ Hget) as Hid.
  unfold edit_post; rewrite (admin_only_admin _ _ _ Hadmin).
  unfold edit_post_body; rewrite (query_get_executed_found _ _ _ Hget).
  simpl; rewrite Hv.
  unfold commit_update_post; rewrite Hid, (title_free_other _ _ _ Hfree).
  reflexivity.
Qed.

Lemma delete_commits (db : DB) (s : Session) (post_id : nat)
    (post : BlogPost.t) :
  is_admin db s ->
  BlogPost_query_get db post_id = Some post ->
  delete post_id db s
  = Ok (commit_delete_post db post_id, s, Redirect url_get_all_posts).
Proof.
  intros Hadmin Hget.
  pose proof (find_key_eq _ _ _ _ Hget) as Hid.
  unfold delete; rewrite (admin_only_admin _ _ _ Hadmin).
  unfold delete_body; rewrite (query_get_executed_found _ _ _ Hget); simpl.
  now rewrite Hid.
Qed.

(** X14: a GET of a post page, or a POST that does not pass validation,
    changes neither the database nor the session; when post keys are
    unique it renders the row of [blog_posts] whose key is the path id,
    the one a lookup by key finds, together with all comments, and for an
    id that names no post it still renders the page, with no post. *)
Theorem show_post_reads :
  forall (db : DB) (s : Session) (index : nat)
         (sub : Submission CommentForm.t),
    validate_on_submit CommentForm_validate sub = None ->
    NoDup (map BlogPost.id (blog_posts db)) ->
    show_post index sub db s
    = Ok (db, s,
          Render (post_html (BlogPost_query_get db index)
                            (Comment_query_all db))).
Proof.
  intros db s index sub Hsub Hkeys.
  rewrite (show_post_renders index sub db s Hsub).
  now rewrite (find_requested_post_is_get _ index Hkeys).
Qed.

(** X15: once the administrator has created a post, the post page of its
    key renders that post for any visitor, and the post list shows it
    last, after the posts that were there. *)
Theorem new_post_then_show :
  forall (db : DB) (s : Session) (form : CreatePostForm.t) (today : datetime),
    is_admin db s ->
    CreatePostForm_validate form = true ->
    title_free db None (CreatePostForm.title form) ->
    exists db1 new_blog,
      new_post (POST form) today db s = Ok (db1, s, Redirect url_get_all_posts)
      /\ BlogPost.title new_blog = CreatePostForm.title form
      /\ forall s2,
           show_post (BlogPost.id new_blog) GET db1 s2
           = Ok (db1, s2, Render (post_html (Some new_blog) (comments db)))
           /\ get_all_posts db1 s2
              = Ok (db1, s2, Render (index_html (blog_posts db ++ [new_blog]))).
Proof.
  intros db s form today Hadmin Hv Hfree.
  unfold new_post; rewrite (admin_only_admin _ _ _ Hadmin).
  rewrite (new_post_body_creates _ _ _ _ Hv Hfree).
  match goal with
  | |- context [blog_posts db ++ [?new_blog]] =>
      exists (mkDB (users db) (blog_posts db ++ [new_blog]) (comments db)),
             new_blog
  end.
  split; [reflexivity | split; [reflexivity|]].
  intros s2; split; [|reflexivity].
  rewrite show_post_renders by reflexivity; simpl.
  now rewrite find_requested_post_snoc, Nat.eqb_refl.
Qed.

(** X16: after the administrator's edit of an existing post, the post page
    of that key renders the post with the submitted title, subtitle, body
    and image URL and its former key, author and date. *)
Theorem edit_post_then_show :
  forall (db : DB) (s : Session) (post_id : nat) (form : CreatePostForm.t)
         (post : BlogPost.t),
    is_admin db s ->
    CreatePostForm_validate form = true ->
    NoDup (map BlogPost.id (blog_posts db)) ->
    BlogPost_query_get db post_id = Some post ->
    title_free db (Some post_id) (CreatePostForm.title form) ->
    exists db1,
      edit_post post_id (POST form) db s
      = Ok (db1, s, Redirect (url_show_post post_id))
      /\ forall s2,
           show_post post_id GET db1 s2
           = Ok (db1, s2,
                 Render (post_html
                           (Some (BlogPost.mk post_id (BlogPost.author_id post)
                                    (CreatePostForm.title form)
                                    (CreatePostForm.subtitle form)
                                    (BlogPost.date post)
                                    (CreatePostForm.body form)
                                    (CreatePostForm.img_url form)))
                           (comments db))).
Proof.
  intros db s post_id form post Hadmin Hv Hkeys Hget Hfree.
  rewrite (edit_post_commits db s post_id form post Hadmin Hv Hget Hfree).
  eexists; split; [reflexivity|].
  intros s2; rewrite show_post_renders by reflexivity; simpl.
  rewrite find_requested_post_map
    by (intros p; now destruct (BlogPost.id p =? post_id)).
  rewrite (find_requested_post_is_get _ post_id Hkeys).
  unfold BlogPost_query_get in Hget; rewrite Hget; simpl.
  pose proof (find_key_eq _ _ _ _ Hget) as Hid.
  rewrite Hid, Nat.eqb_refl; unfold set_post_fields; now rewrite Hid.
Qed.

(** X17: after the administrator's delete of an existing post, the post
    page of that key answers no error: it renders the page with no post,
    and the post list no longer has a post with that key. *)
Theorem delete_then_show :
  forall (db : DB) (s : Session) (post_id : nat) (post : BlogPost.t),
    is_admin db s ->
    BlogPost_query_get db post_id = Some post ->
    exists db1,
      delete post_id db s = Ok (db1, s, Redirect url_get_all_posts)
      /\ users db1 = users db
      /\ forall s2,
           show_post post_id GET db1 s2
           = Ok (db1, s2, Render (post_html None (comments db1)))
           /\ exists posts,
                get_all_posts db1 s2 = Ok (db1, s2, Render (index_html posts))
                /\ forall p, In p posts ->
                     In p (blog_posts db) /\ BlogPost.id p <> post_id.
Proof.
  intros db s post_id post Hadmin Hget.
  rewrite (delete_commits db s post_id post Hadmin Hget).
  eexists; split; [reflexivity|].
  split; [reflexivity|].
  assert (Hgone : forall p,
             In p (blog_posts (commit_delete_post db post_id)) ->
             In p (blog_posts db) /\ BlogPost.id p <> post_id).
  { intros p Hp; simpl in Hp; apply filter_In in Hp.
    destruct Hp as [Hin Hp]; split; [assumption|].
    apply Nat.eqb_neq; now destruct (BlogPost.id p =? post_id). }
  intros s2; split.
  - rewrite show_post_renders by reflexivity.
    rewrite find_requested_post_none; [reflexivity|].
    intros p Hp; now apply Hgone.
  - eexists; split; [reflexivity | exact Hgone].
Qed.

(** X18: deleting a post keeps every comment: the comments of the deleted
    post stay in the table, with their key, author and text, and lose
    their post reference; the other comments are untouched; so afterwards
    no comment references the deleted key. *)
Theorem delete_orphans_comments :
  forall (db : DB) (s : Session) (post_id : nat) (post : BlogPost.t),
    is_admin db s ->
    BlogPost_query_get db post_id = Some post ->
    exists db1,
      delete post_id db s = Ok (db1, s, Redirect url_get_all_posts)
      /\ map comment_core (comments db1) = map comment_core (comments db)
      /\ (forall c, In c (comments db1) -> Comment.post_id c <> Some post_id)
      /\ (forall c, In c (comments db) ->
                    Comment.post_id c <> Some post_id ->
                    In c (comments db1))
      /\ (forall c, In c (comments db) ->
                    Comment.post_id c = Some post_id ->
                    In (Comment.mk (Comment.id c) (Comment.author_id c) None
                                   (Comment.text c))
                       (comments db1)).
Proof.
  intros db s post_id post Hadmin Hget.
  rewrite (delete_commits db s post_id post Hadmin Hget).
  eexists; split; [reflexivity|]; simpl.
  split; [|split; [|split]].
  - rewrite map_map; apply map_ext, nullify_keeps_core.
  - intros c' Hin; apply in_map_iff in Hin; destruct Hin as (c & <- & _).
    unfold nullify_post.
    destruct (Comment.post_id c) as [k|] eqn:Ek; [|now rewrite Ek].
    destruct (k =? post_id) eqn:E; simpl; [discriminate|].
    rewrite Ek; intros [= ->]; now rewrite Nat.eqb_refl in E.
  - intros c Hin Hother; apply in_map_iff; exists c; split; [|assumption].
    unfold nullify_post.
    destruct (Comment.post_id c) as [k|]; [|reflexivity].
    destruct (k =? post_id) eqn:E; [|reflexivity].
    apply Nat.eqb_eq in E; congruence.
  - intros c Hin Hthis; apply in_map_iff; exists c; split; [|assumption].
    unfold nullify_post; now rewrite Hthis, Nat.eqb_refl.
Qed.

End Pages.

(** ** Contact, logout and the date format *)

Section Remaining.

Context {forms : Forms} {hasher : PasswordHasher}.

Lemma contact_by_message (data : list (string * string)) (smtp_ok : bool)
    (db : DB) (s : Session) :
  contact (POST data) smtp_ok db s
  = match contact_message data with
    | Some _ =>
        if smtp_ok then Ok (db, s, Render (contact_html true))
        else Raise SMTPException
    | None => Ok (db, s, Abort 400)
    end.
Proof.
  unfold contact, contact_message.
  now destruct (form_get data "nam"), (form_get data "emai"),
    (form_get data "phon"), (form_get data "messag").
Qed.

(** X19: [contact] never touches the database or the session.  Its page
    confirms that the message was sent only for a POST that carried the
    four keys, so that the message could be composed, and whose mail was
    accepted by the transport; a POST that lacks one of the keys is
    answered 400 whatever the transport would do. *)
Theorem contact_confirms :
  forall (sub : Submission (list (string * string))) (smtp_ok : bool)
         (db : DB) (s : Session) (db' : DB) (s' : Session) (resp : Response),
    contact sub smtp_ok db s = Ok (db', s', resp) ->
    db' = db /\ s' = s
    /\ (resp = Render (contact_html true)
        <-> exists data message,
              sub = POST data /\ contact_message data = Some message
              /\ smtp_ok = true)
    /\ (resp = Abort 400
        <-> exists data, sub = POST data /\ contact_message data = None).
Proof.
  intros sub smtp_ok db s db' s' resp Hrun.
  destruct sub as [|data].
  - revert Hrun; intros [= <- <- <-].
    split; [reflexivity | split; [reflexivity|]].
    split; split; intros H; try discriminate H.
    + destruct H as (data & message & Hsub & _); discriminate Hsub.
    + destruct H as (data & Hsub & _); discriminate Hsub.
  - rewrite contact_by_message in Hrun.
    destruct (contact_message data) as [message|] eqn:Hmsg;
      cbv iota beta in Hrun.
    + destruct smtp_ok; [|discriminate Hrun].
      revert Hrun; intros [= <- <- <-].
      split; [reflexivity | split; [reflexivity|]].
      split; split; intros H; try discriminate H.
      * now exists data, message.
      * reflexivity.
      * destruct H as (data' & [= <-] & Hnone); congruence.
    + revert Hrun; intros [= <- <- <-].
      split; [reflexivity | split; [reflexivity|]].
      split; split; intros H; try discriminate H.
      * destruct H as (data' & message & [= <-] & Hsome & _); congruence.
      * now exists data.
      * reflexivity.
Qed.

(** X20: after logout the returned session carries no identity on any
    database, its pending flash messages are kept, no request to a post
    page made with it changes the database, and the [admin_only] guard
    raises for it. *)
Theorem logout_makes_anonymous :
  forall (db : DB) (s : Session),
    exists s',
      logout db s = Ok (db, s', Redirect url_get_all_posts)
      /\ flashes s' = flashes s
      /\ forall db2,
           current_user db2 s' = AnonymousUserMixin
           /\ (forall index sub, exists s2 resp,
                 show_post index sub db2 s' = Ok (db2, s2, resp))
           /\ (forall function_x,
                 admin_only function_x db2 s' = Raise AttributeError).
Proof.
  intros db s; exists (logout_user s).
  split; [reflexivity | split; [reflexivity|]].
  intros db2; split; [reflexivity | split; [|reflexivity]].
  intros index sub; unfold show_post.
  destruct (validate_on_submit CommentForm_validate sub); simpl; eauto.
Qed.

End Remaining.

Lemma append_cancel_l (p a b : string) :
  (p ++ a)%string = (p ++ b)%string -> a = b.
Proof.
  induction p as [|c p IH]; simpl; [auto|].
  intros [= H]; auto.
Qed.

Lemma month_name_prefix (m1 m2 : Month) (rest1 rest2 : string) :
  (month_name m1 ++ " " ++ rest1)%string
  = (month_name m2 ++ " " ++ rest2)%string ->
  m1 = m2.
Proof.
  destruct m1, m2; simpl; intros H; try reflexivity; discriminate H.
Qed.

Lemma decimal_injective (n m : nat) : decimal n = decimal m -> n = m.
Proof.
  unfold decimal; intros H.
  apply Unsigned.to_uint_inj.
  apply (f_equal NilEmpty.uint_of_string) in H.
  rewrite !NilEmpty.usu in H; now injection H.
Qed.

Lemma zero_padded_two (d : nat) :
  d < 100 -> exists a b, zero_padded d = String a (String b EmptyString).
Proof.
  intros Hd; pose proof (zero_padded_length d Hd) as Hlen.
  destruct (zero_padded d) as [|a [|b [|c rest]]]; try discriminate.
  now exists a, b.
Qed.

Lemma zero_padded_injective (d1 d2 : nat) :
  d1 < 100 -> d2 < 100 -> zero_padded d1 = zero_padded d2 -> d1 = d2.
Proof.
  intros H1 H2 H.
  assert (Hall : forallb
            (fun i => forallb
               (fun j => implb (zero_padded i =? zero_padded j)%string
                               (i =? j))
               (seq 0 100))
            (seq 0 100) = true) by (vm_compute; reflexivity).
  rewrite forallb_forall in Hall.
  assert (Hi : In d1 (seq 0 100)) by (apply in_seq; lia).
  assert (Hj : In d2 (seq 0 100)) by (apply in_seq; lia).
  specialize (Hall d1 Hi); rewrite forallb_forall in Hall.
  specialize (Hall d2 Hj).
  rewrite H, String.eqb_refl in Hall; simpl in Hall.
  now apply Nat.eqb_eq.
Qed.

(** X21: the stored date string determines the date: two days of the
    month (1 to 31, any month and year) with the same [%B %d, %Y] string
    are the same date. *)
Theorem strftime_B_d_Y_injective :
  forall d1 d2 : datetime,
    valid_day d1 -> valid_day d2 ->
    strftime_B_d_Y d1 = strftime_B_d_Y d2 ->
    d1 = d2.
Proof.
  intros [y1 m1 day1] [y2 m2 day2]; unfold valid_day, strftime_B_d_Y; simpl.
  intros Hd1 Hd2 H.
  pose proof (month_name_prefix _ _ _ _ H) as Hm; subst m2.
  apply append_cancel_l in H; simpl in H; injection H as H.
  destruct (zero_padded_two day1) as (a1 & b1 & E1); [lia|].
  destruct (zero_padded_two day2) as (a2 & b2 & E2); [lia|].
  rewrite E1, E2 in H; simpl in H; injection H as Ha Hb Hy.
  assert (Hday : day1 = day2).
  { apply zero_padded_injective; [lia | lia|]; now rewrite E1, E2, Ha, Hb. }
  apply decimal_injective in Hy; now subst.
Qed.

(** * Further concrete runs *)

Lemma bob_not_admin : ~ is_admin db_one_post (session_of 2).
Proof.
  intros (user & Hcu & Hid).
  injection Hcu as <-; discriminate Hid.
Qed.

Lemma non_admin_forbidden_witness :
  current_user db_one_post (session_of 2) = LoggedIn bob
  /\ User.id bob <> 1
  /\ (forall sub today,
        new_post (forms := forms_data_required) sub today db_one_post
                 (session_of 2)
        = Ok (db_one_post, session_of 2, Abort 403))
  /\ (forall post_id sub,
        edit_post (forms := forms_data_required) post_id sub db_one_post
                  (session_of 2)
        = Ok (db_one_post, session_of 2, Abort 403))
  /\ (forall post_id,
        delete post_id db_one_post (session_of 2)
        = Ok (db_one_post, session_of 2, Abort 403)).
Proof.
  assert (Hid : User.id bob <> 1) by discriminate.
  split; [reflexivity | split; [exact Hid|]].
  exact (non_admin_forbidden (forms := forms_data_required) db_one_post
           (session_of 2) bob eq_refl Hid).
Defined.

Lemma carol_is_new :
  forall u, In u (users db_users) ->
            User.email u <> RegisterForm.email carol_form.
Proof.
  intros u [<- | [<- | []]]; discriminate.
Qed.

Lemma register_logs_in_witness :
  RegisterForm_validate (Forms := forms_data_required) carol_form = true
  /\ (forall u, In u (users db_users) ->
                User.email u <> RegisterForm.email carol_form)
  /\ exists new_user db1 s1,
       register (forms := forms_data_required) (hasher := hasher_plain)
                (POST carol_form) "salt" db_users anonymous_session
       = Ok (db1, s1, Redirect url_get_all_posts)
       /\ db1 = mkDB (users db_users ++ [new_user]) (blog_posts db_users)
                     (comments db_users)
       /\ new_user
          = User.mk (autoincrement (map User.id (users db_users)))
                    (RegisterForm.email carol_form)
                    (generate_password_hash (PasswordHasher := hasher_plain)
                       (RegisterForm.password carol_form) "salt")
                    (RegisterForm.name carol_form)
       /\ flashes s1 = flashes anonymous_session
       /\ current_user db1 s1 = LoggedIn new_user.
Proof.
  split; [reflexivity | split; [exact carol_is_new|]].
  exact (register_logs_in (forms := forms_data_required)
           (hasher := hasher_plain) db_users anonymous_session carol_form
           "salt" eq_refl carol_is_new).
Defined.

Lemma first_user_is_admin_witness :
  users empty_db = []
  /\ RegisterForm_validate (Forms := forms_data_required) alice_form = true
  /\ exists db1 s1,
       register (forms := forms_data_required) (hasher := hasher_plain)
                (POST alice_form) "salt" empty_db anonymous_session
       = Ok (db1, s1, Redirect url_get_all_posts)
       /\ user_id s1 = Some 1
       /\ is_admin db1 s1
       /\ forall function_x, admin_only function_x db1 s1 = function_x db1 s1.
Proof.
  split; [reflexivity | split; [reflexivity|]].
  exact (first_user_is_admin (forms := forms_data_required)
           (hasher := hasher_plain) empty_db anonymous_session alice_form
           "salt" eq_refl eq_refl).
Defined.

Lemma carol_is_new_after_run :
  forall u,
    In u (users (run (forms := forms_data_required) (hasher := hasher_plain)
                     empty_db requests_comment_no_post)) ->
    User.email u <> RegisterForm.email carol_form.
Proof.
  intros u [<- | []]; discriminate.
Qed.

Lemma later_users_not_admin_witness :
  users (run (forms := forms_data_required) (hasher := hasher_plain)
             empty_db requests_comment_no_post) <> []
  /\ RegisterForm_validate (Forms := forms_data_required) carol_form = true
  /\ exists db1 s1,
       register (forms := forms_data_required) (hasher := hasher_plain)
                (POST carol_form) "salt"
                (run (forms := forms_data_required) (hasher := hasher_plain)
                     empty_db requests_comment_no_post)
                anonymous_session
       = Ok (db1, s1, Redirect url_get_all_posts)
       /\ ~ is_admin db1 s1
       /\ (forall sub today,
             new_post (forms := forms_data_required) sub today db1 s1
             = Ok (db1, s1, Abort 403))
       /\ (forall post_id sub,
             edit_post (forms := forms_data_required) post_id sub db1 s1
             = Ok (db1, s1, Abort 403))
       /\ (forall post_id, delete post_id db1 s1 = Ok (db1, s1, Abort 403)).
Proof.
  assert (Hne : users (run (forms := forms_data_required)
                           (hasher := hasher_plain)
                           empty_db requests_comment_no_post) <> [])
    by discriminate.
  split; [exact Hne | split; [reflexivity|]].
  exact (later_users_not_admin (forms := forms_data_required)
           (hasher := hasher_plain) requests_comment_no_post
           anonymous_session carol_form "salt" Hne eq_refl
           carol_is_new_after_run).
Defined.

Lemma only_admin_changes_posts_witness :
  ~ is_admin db_one_post (session_of 2)
  /\ blog_posts (step (forms := forms_data_required) (hasher := hasher_plain)
                      db_one_post (session_of 2, req_delete 1))
     = blog_posts db_one_post.
Proof.
  split; [exact bob_not_admin|].
  exact (only_admin_changes_posts (forms := forms_data_required)
           (hasher := hasher_plain) db_one_post (session_of 2) (req_delete 1)
           bob_not_admin).
Defined.

Lemma dispatch_frame_witness :
  dispatch (forms := forms_data_required) (hasher := hasher_plain)
           (req_show_post 1 (POST comment_form_hi)) db_one_post (session_of 2)
  = Ok (mkDB [alice; bob] [post_T] [Comment.mk 1 (Some 2) (Some 1) "hi"],
        session_of 2, Render (post_html (Some post_T) []))
  /\ (writes_users (req_show_post 1 (POST comment_form_hi)) = false ->
      users (mkDB [alice; bob] [post_T] [Comment.mk 1 (Some 2) (Some 1) "hi"])
      = users db_one_post)
  /\ (writes_posts (req_show_post 1 (POST comment_form_hi)) = false ->
      blog_posts
        (mkDB [alice; bob] [post_T] [Comment.mk 1 (Some 2) (Some 1) "hi"])
      = blog_posts db_one_post)
  /\ (writes_comments (req_show_post 1 (POST comment_form_hi)) = false ->
      comments
        (mkDB [alice; bob] [post_T] [Comment.mk 1 (Some 2) (Some 1) "hi"])
      = comments db_one_post).
Proof.
  split; [reflexivity|].
  exact (dispatch_frame (forms := forms_data_required)
           (hasher := hasher_plain) (req_show_post 1 (POST comment_form_hi))
           db_one_post (session_of 2) _ _ _ eq_refl).
Defined.

Lemma session_identity_frame_witness :
  dispatch (forms := forms_data_required) (hasher := hasher_plain)
           (req_delete 1) db_one_post (session_of 1)
  = Ok (mkDB [alice; bob] [] [], session_of 1, Redirect url_get_all_posts)
  /\ changes_identity (req_delete 1) = false
  /\ user_id (session_of 1) = user_id (session_of 1).
Proof.
  split; [reflexivity | split; [reflexivity|]].
  exact (session_identity_frame (forms := forms_data_required)
           (hasher := hasher_plain) (req_delete 1) db_one_post (session_of 1)
           _ _ _ eq_refl eq_refl).
Defined.

Lemma login_sound_witness :
  login (forms := forms_data_required) (hasher := hasher_plain)
        (POST login_bob) db_users anonymous_session
  = Ok (db_users, login_user bob anonymous_session,
        Redirect url_get_all_posts)
  /\ db_users = db_users
  /\ ((Redirect url_get_all_posts = Redirect url_get_all_posts
       /\ exists form user,
            POST login_bob = POST form
            /\ In user (users db_users)
            /\ User.email user = LoginForm.email form
            /\ check_password_hash (PasswordHasher := hasher_plain)
                 (User.password user) (LoginForm.password form) = true
            /\ login_user bob anonymous_session
               = login_user user anonymous_session)
      \/ (Redirect url_get_all_posts <> Redirect url_get_all_posts
          /\ user_id (login_user bob anonymous_session)
             = user_id anonymous_session)).
Proof.
  split; [reflexivity|].
  exact (login_sound (forms := forms_data_required) (hasher := hasher_plain)
           (POST login_bob) db_users anonymous_session _ _ _ eq_refl).
Defined.

Lemma two_posts_keys : NoDup (map BlogPost.id (blog_posts db_two_posts)).
Proof.
  repeat constructor; simpl; intuition discriminate.
Qed.

Lemma show_post_reads_witness :
  validate_on_submit (CommentForm_validate (Forms := forms_data_required)) GET
  = None
  /\ NoDup (map BlogPost.id (blog_posts db_two_posts))
  /\ show_post (forms := forms_data_required) 2 GET db_two_posts
               anonymous_session
     = Ok (db_two_posts, anonymous_session,
           Render (post_html (BlogPost_query_get db_two_posts 2)
                             (Comment_query_all db_two_posts))).
Proof.
  split; [reflexivity | split; [exact two_posts_keys|]].
  exact (show_post_reads (forms := forms_data_required) db_two_posts
           anonymous_session 2 GET eq_refl two_posts_keys).
Defined.

Lemma alice_admin_one_post : is_admin db_one_post (session_of 1).
Proof.
  exists alice; split; reflexivity.
Qed.

Lemma alice_admin_two_posts : is_admin db_two_posts (session_of 1).
Proof.
  exists alice; split; reflexivity.
Qed.

Lemma alice_admin_commented : is_admin db_commented (session_of 1).
Proof.
  exists alice; split; reflexivity.
Qed.

Lemma title_V_free_one_post :
  title_free db_one_post None (CreatePostForm.title form_V).
Proof.
  intros p [<- | []] _; discriminate.
Qed.

Lemma title_V_free_two_posts :
  title_free db_two_posts (Some 2) (CreatePostForm.title form_V).
Proof.
  intros p [<- | [<- | []]] _; discriminate.
Qed.

Lemma new_post_then_show_witness :
  is_admin db_one_post (session_of 1)
  /\ CreatePostForm_validate (Forms := forms_data_required) form_V = true
  /\ title_free db_one_post None (CreatePostForm.title form_V)
  /\ exists db1 new_blog,
       new_post (forms := forms_data_required) (POST form_V) today_example
                db_one_post (session_of 1)
       = Ok (db1, session_of 1, Redirect url_get_all_posts)
       /\ BlogPost.title new_blog = CreatePostForm.title form_V
       /\ forall s2,
            show_post (forms := forms_data_required) (BlogPost.id new_blog)
                      GET db1 s2
            = Ok (db1, s2,
                  Render (post_html (Some new_blog) (comments db_one_post)))
            /\ get_all_posts db1 s2
               = Ok (db1, s2,
                     Render (index_html (blog_posts db_one_post
                                         ++ [new_blog]))).
Proof.
  split; [exact alice_admin_one_post | split; [reflexivity|]].
  split; [exact title_V_free_one_post|].
  exact (new_post_then_show (forms := forms_data_required) db_one_post
           (session_of 1) form_V today_example alice_admin_one_post eq_refl
           title_V_free_one_post).
Defined.

Lemma edit_post_then_show_witness :
  is_admin db_two_posts (session_of 1)
  /\ CreatePostForm_validate (Forms := forms_data_required) form_V = true
  /\ NoDup (map BlogPost.id (blog_posts db_two_posts))
  /\ BlogPost_query_get db_two_posts 2 = Some post_U
  /\ title_free db_two_posts (Some 2) (CreatePostForm.title form_V)
  /\ exists db1,
       edit_post (forms := forms_data_required) 2 (POST form_V) db_two_posts
                 (session_of 1)
       = Ok (db1, session_of 1, Redirect (url_show_post 2))
       /\ forall s2,
            show_post (forms := forms_data_required) 2 GET db1 s2
            = Ok (db1, s2,
                  Render (post_html
                            (Some (BlogPost.mk 2 (Some 1) "V" "sub2"
                                     "November 03, 2026" "text2"
                                     "http://img2"))
                            (comments db_two_posts))).
Proof.
  split; [exact alice_admin_two_posts | split; [reflexivity|]].
  split; [exact two_posts_keys | split; [reflexivity|]].
  split; [exact title_V_free_two_posts|].
  exact (edit_post_then_show (forms := forms_data_required) db_two_posts
           (session_of 1) 2 form_V post_U alice_admin_two_posts eq_refl
           two_posts_keys eq_refl title_V_free_two_posts).
Defined.

Lemma delete_then_show_witness :
  is_admin db_commented (session_of 1)
  /\ BlogPost_query_get db_commented 1 = Some post_T
  /\ exists db1,
       delete 1 db_commented (session_of 1)
       = Ok (db1, session_of 1, Redirect url_get_all_posts)
       /\ users db1 = users db_commented
       /\ forall s2,
            show_post (forms := forms_data_required) 1 GET db1 s2
            = Ok (db1, s2, Render (post_html None (comments db1)))
            /\ exists posts,
                 get_all_posts db1 s2
                 = Ok (db1, s2, Render (index_html posts))
                 /\ forall p, In p posts ->
                      In p (blog_posts db_commented) /\ BlogPost.id p <> 1.
Proof.
  split; [exact alice_admin_commented | split; [reflexivity|]].
  exact (delete_then_show (forms := forms_data_required) db_commented
           (session_of 1) 1 post_T alice_admin_commented eq_refl).
Defined.

Lemma delete_orphans_comments_witness :
  is_admin db_commented (session_of 1)
  /\ BlogPost_query_get db_commented 1 = Some post_T
  /\ exists db1,
       delete 1 db_commented (session_of 1)
       = Ok (db1, session_of 1, Redirect url_get_all_posts)
       /\ map comment_core (comments db1)
          = map comment_core (comments db_commented)
       /\ (forall c, In c (comments db1) -> Comment.post_id c <> Some 1)
       /\ (forall c, In c (comments db_commented) ->
                     Comment.post_id c <> Some 1 ->
                     In c (comments db1))
       /\ (forall c, In c (comments db_commented) ->
                     Comment.post_id c = Some 1 ->
                     In (Comment.mk (Comment.id c) (Comment.author_id c) None
                                    (Comment.text c))
                        (comments db1)).
Proof.
  split; [exact alice_admin_commented | split; [reflexivity|]].
  exact (delete_orphans_comments db_commented (session_of 1) 1 post_T
           alice_admin_commented eq_refl).
Defined.

Lemma contact_confirms_witness :
  contact (POST contact_data) true db_users anonymous_session
  = Ok (db_users, anonymous_session, Render (contact_html true))
  /\ db_users = db_users /\ anonymous_session = anonymous_session
  /\ (Render (contact_html true) = Render (contact_html true)
      <-> exists data message,
            POST contact_data = POST data
            /\ contact_message data = Some message
            /\ true = true)
  /\ (Render (contact_html true) = Abort 400
      <-> exists data,
            POST contact_data = POST data /\ contact_message data = None).
Proof.
  split; [reflexivity|].
  exact (contact_confirms (POST contact_data) true db_users anonymous_session
           _ _ _ eq_refl).
Defined.

Lemma strftime_B_d_Y_injective_witness :
  valid_day today_example
  /\ valid_day (mkDate 2026 November 3)
  /\ strftime_B_d_Y today_example = strftime_B_d_Y (mkDate 2026 November 3)
  /\ today_example = mkDate 2026 November 3.
Proof.
  assert (Hday : valid_day today_example) by (unfold valid_day; simpl; lia).
  split; [exact Hday | split; [exact Hday | split; [reflexivity|]]].
  exact (strftime_B_d_Y_injective today_example (mkDate 2026 November 3)
           Hday Hday eq_refl).
Defined.

(** C10, as stated, fails: 2^63 names no post, and for it the
    administrator's requests do not get as far as a missing row: the
    lookup raises [OverflowError], so edit-post raises neither
    [AttributeError] nor delete-post [UnmappedInstanceError]. *)
Lemma missing_post_overflow :
  is_admin db_one_post (session_of 1)
  /\ no_post db_one_post (2 ^ 63)
  /\ BlogPost_query_get_executed db_one_post (2 ^ 63) = Raise OverflowError
  /\ edit_post (forms := forms_data_required) (2 ^ 63) GET db_one_post
               (session_of 1)
     = Raise OverflowError
  /\ delete (2 ^ 63) db_one_post (session_of 1) = Raise OverflowError.
Proof.
  assert (Hbig : sqlite_integer (2 ^ 63) = false).
  { destruct (sqlite_integer (2 ^ 63)) eqn:E; [|reflexivity].
    apply sqlite_integer_spec in E; lia. }
  assert (Hnone : no_post db_one_post (2 ^ 63)).
  { intros p [<- | []] E.
    apply (f_equal N.of_nat) in E; rewrite Nat2N.inj_pow in E.
    discriminate E. }
  assert (Hmissing : BlogPost_query_get_executed db_one_post (2 ^ 63)
                     = Raise OverflowError).
  { rewrite query_get_executed_missing by now apply no_post_query_get.
    now rewrite Hbig. }
  split; [exact alice_admin_one_post | split; [exact Hnone|]].
  split; [exact Hmissing|].
  split; unfold edit_post, delete;
    rewrite (admin_only_admin _ _ _ alice_admin_one_post).
  - unfold edit_post_body; now rewrite Hmissing.
  - unfold delete_body; now rewrite Hmissing.
Qed.

(** A registration whose email another request has committed since the
    lookup is refused by the unique constraint. *)
Lemma register_race_example :
  register_interleaved (forms := forms_data_required)
    (hasher := hasher_plain) (POST alice_form) "salt" empty_db db_users
    anonymous_session
  = Raise IntegrityError.
Proof.
  reflexivity.
Qed.
